(** * cluster-api-provider-kubevirt: the machine lifecycle manager,
      the provider-condition helper and the providerID reconciler.

    A shallow embedding of
      - [pkg/kubevirt/kubevirt.go]        (package kubevirt: [manager]),
      - the condition helpers of package [vm] ([setKubevirtMachineProviderCondition]),
      - the two revisions of the providerID reconciler (package [providerid]).

    Go pointers are [option]s ([None] is [nil]), a Go [(value, error)] pair
    is a pair whose second component is an [option] error, a dereference of
    [nil] and a failed type assertion are the [Panic] outcome.  The
    collaborators the code only knows through Go interfaces
    ([machinescope.MachineScope], [infracluster.Client], ...) are type
    classes over the collaborator's state. *)

From Stdlib Require Import ZArith Ascii.
From Stdlib Require Import Floats.SpecFloat.
From stdpp Require Import base option list strings gmap.

#[local] Set Warnings "-register-all".
Local Open Scope Z_scope.
Local Open Scope string_scope.
Local Open Scope list_scope.

(** ** Go values *)

(** [[]byte]. *)
Abbreviation bytes := (list Byte.byte).

(** [time.Duration]: an [int64] count of nanoseconds. *)
Definition Duration : Type := Z.
Definition Second : Duration := 1000000000.

(** An [error] that a collaborator hands to this code.  The code reads two
    things of such a value: its text ([err.Error()]) and, in
    [errors.IsNotFound], the reason of the API status it carries (there is
    none when the value is no [APIStatus]). *)
Record opaque_error : Type := mkError {
  error_text : string;
  status_reason : option string
}.

(** [errors.IsNotFound] of the apimachinery this code is built against:
    [ReasonForError(err) == metav1.StatusReasonNotFound]. *)
Definition IsNotFound (err : opaque_error) : bool :=
  bool_decide (status_reason err = Some "NotFound").

(** The [error] values this code returns. *)
Inductive error : Type :=
| Opaque (err : opaque_error)
    (* a collaborator's error, returned as it is *)
| WrapError (msg : string) (err : opaque_error)
    (* [fmt.Errorf("...: %w", err)]: [msg] is the whole text, [err] is what [Unwrap] gives *)
| ErrorString (msg : string)
    (* [fmt.Errorf] without [%w] *)
| RequeueAfterError (RequeueAfter : Duration)
    (* [&machinecontroller.RequeueAfterError{RequeueAfter: d}] *)
| MachineError (reason message : string).
    (* [machinecontroller.InvalidMachineConfiguration(...)] *)

(** [fmt.Errorf(prefix + ": %w", err)] for a format whose only verb is the
    final [%w]. *)
Definition Errorf_w (prefix : string) (err : opaque_error) : error :=
  WrapError (prefix +:+ ": " +:+ error_text err) err.

(** [fmt.Errorf(prefix + ": %v", err)]. *)
Definition Errorf_v (prefix : string) (err : opaque_error) : error :=
  ErrorString (prefix +:+ ": " +:+ error_text err).

(** [errors.Unwrap]. *)
Definition Unwrap (e : error) : option opaque_error :=
  match e with
  | WrapError _ err => Some err
  | _ => None
  end.

(** The requeue delay an error carries for the controller (the controller
    tests the returned error for [*RequeueAfterError]); a collaborator's
    error is returned untouched, so what it carries is the collaborator's. *)
Definition requeue_hint (e : error) : option Duration :=
  match e with
  | RequeueAfterError d => Some d
  | _ => None
  end.

(** The outcome of running Go code: it returns, or it panics (a [nil]
    dereference, a failed type assertion, an assignment to an entry of a
    [nil] map). *)
Inductive result (A : Type) : Type :=
| Done (a : A)
| Panic.
Arguments Done {A} a.
Arguments Panic {A}.

(** Go code that runs on a state [St] (the objects it holds pointers to):
    it returns a value or panics, and leaves a state in both cases. *)
Definition Go (St A : Type) : Type := St -> result A * St.

#[global] Instance Go_ret {St} : MRet (Go St) := fun A a st => (Done a, st).
#[global] Instance Go_bind {St} : MBind (Go St) := fun A B f m st =>
  match m st with
  | (Done a, st') => f a st'
  | (Panic, st') => (Panic, st')
  end.

Definition lift {St A : Type} (r : result A) : Go St A :=
  fun st => (r, st).

(** [*p], [p.f]: a [nil] pointer panics. *)
Definition deref {St A : Type} (p : option A) : Go St A :=
  match p with
  | Some a => mret a
  | None => lift Panic
  end.

(** ** Kubernetes and KubeVirt API objects *)

(** [metav1.Time], as a count of nanoseconds. *)
Definition Time : Type := Z.

(** [kubevirtapiv1.VirtualMachineConditionType] and [corev1.ConditionStatus]
    are Go string types. *)
Definition VirtualMachineConditionType : Type := string.
Definition ConditionStatus : Type := string.

Definition VirtualMachineFailure : VirtualMachineConditionType := "Failure".
Definition ConditionTrue : ConditionStatus := "True".

(** [kubevirtapiv1.VirtualMachineCondition]; the field [Type] is [Type_]. *)
Record VirtualMachineCondition : Type := mkCondition {
  Type_ : VirtualMachineConditionType;
  Status : ConditionStatus;
  LastProbeTime : Time;
  LastTransitionTime : Time;
  Reason : string;
  Message : string
}.

(** [corev1.Secret], the fields the ignition secret has. *)
Record Secret : Type := mkSecret {
  SecretName : string;
  SecretNamespace : string;
  SecretData : gmap string bytes
}.

(** [kubevirtapiv1.VirtualMachineStatus]. *)
Record VirtualMachineStatus : Type := mkVMStatus {
  Created : bool;
  Ready : bool;
  Conditions : list VirtualMachineCondition
}.

(** [kubevirtapiv1.VirtualMachine]: the metadata this code reads and
    writes, the spec (which it hands on and never inspects) and the
    status. *)
Record VirtualMachine : Type := mkVM {
  Name : string;
  Namespace : string;
  ResourceVersion : string;
  Spec : string;
  VMStatus : VirtualMachineStatus
}.

(** [kubevirtapiv1.VirtualMachineInstance]. *)
Record VirtualMachineInstance : Type := mkVMI {
  VMIName : string;
  VMINamespace : string;
  Phase : string;
  Interfaces : list string
}.

(** [corev1.Node]: its name and [Spec.ProviderID]. *)
Record Node : Type := mkNode {
  NodeName : string;
  ProviderID : string
}.

(** ** Package vm: the provider-condition helpers *)

Module Conditions.

(** [shouldUpdateCondition]: reason or message differ. *)
Definition shouldUpdateCondition (newCondition existingCondition : VirtualMachineCondition) : bool :=
  negb (bool_decide (Reason newCondition = Reason existingCondition))
  || negb (bool_decide (Message newCondition = Message existingCondition)).

(** [findProviderCondition]: the index of the first condition of that type
    (the Go function returns the pointer [&conditions[i]]), [None] for [nil]. *)
Fixpoint findProviderCondition (conditions : list VirtualMachineCondition)
    (conditionType : VirtualMachineConditionType) : option nat :=
  match conditions with
  | [] => None
  | c :: rest =>
      if bool_decide (Type_ c = conditionType) then Some 0%nat
      else S <$> findProviderCondition rest conditionType
  end.

(** [updateExistingCondition]: the content of [*existingCondition] when the
    function returns.  [now'] is what its call of [metav1.Now()] returns. *)
Definition updateExistingCondition (now' : Time)
    (newCondition existingCondition : VirtualMachineCondition) : VirtualMachineCondition :=
  if negb (shouldUpdateCondition newCondition existingCondition) then existingCondition
  else
    {| Type_ := Type_ existingCondition;
       Status := Status newCondition;
       LastProbeTime := LastProbeTime newCondition;
       LastTransitionTime :=
         if bool_decide (Status existingCondition = Status newCondition)
         then LastTransitionTime existingCondition else now';
       Reason := Reason newCondition;
       Message := Message newCondition |}.

(** [setKubevirtMachineProviderCondition].  [now] is the value of the
    [metav1.Now()] at the head of the function, [now'] the one read inside
    [updateExistingCondition].  The existing condition is written through
    the pointer into the slice, so the update is the list update at the
    index found. *)
Definition setKubevirtMachineProviderCondition (now now' : Time)
    (condition : VirtualMachineCondition)
    (conditions : list VirtualMachineCondition) : list VirtualMachineCondition :=
  match findProviderCondition conditions (Type_ condition) with
  | None =>
      conditions ++
        [ {| Type_ := Type_ condition;
             Status := Status condition;
             LastProbeTime := now;
             LastTransitionTime := now;
             Reason := Reason condition;
             Message := Message condition |} ]
  | Some i => alter (updateExistingCondition now' condition) i conditions
  end.

(** [conditionFailed] (the same function is in package kubevirt). *)
Definition conditionFailed : VirtualMachineCondition :=
  {| Type_ := VirtualMachineFailure;
     Status := ConditionTrue;
     LastProbeTime := 0;
     LastTransitionTime := 0;
     Reason := "MachineCreationFailed";
     Message := EmptyString |}.

(** What the claim of a probe time "updated on every observation" says of
    one write: every condition of the written type carries the time of
    the write (one of the two clock readings of the call). *)
Definition lastProbeTime_updated (now now' : Time)
    (condition : VirtualMachineCondition) (conditions : list VirtualMachineCondition) : Prop :=
  ∀ c, c ∈ setKubevirtMachineProviderCondition now now' condition conditions →
       Type_ c = Type_ condition →
       LastProbeTime c = now ∨ LastProbeTime c = now'.

End Conditions.

(** ** encoding/json, as this code uses it *)

(** A [float64]. *)
Definition float64 : Type := spec_float.

(** A JSON document.  A number is held as the [float64] that the decoder
    reads it as; an object keeps its members in the order of the text. *)
Inductive json : Type :=
| JNull
| JBool (b : bool)
| JNumber (f : float64)
| JString (s : string)
| JArray (elems : list json)
| JObject (members : list (string * json)).

(** A Go value held in an [interface{}], with the dynamic types this code
    meets.  [VSlice] is a [[]interface{}] and [VMapSlice] is a
    [[]map[string]interface{}]: a type assertion tells them apart. *)
Inductive value : Type :=
| VNil
| VBool (b : bool)
| VFloat64 (f : float64)
| VInt (n : Z)
| VString (s : string)
| VSlice (elems : list value)
| VMap (m : gmap string value)
| VMapSlice (elems : list (gmap string value)).

(** What [json.Unmarshal] stores into an [interface{}]: [bool], [float64],
    [string], [[]interface{}], [map[string]interface{}] and [nil].  A member
    name met twice keeps the later value. *)
Fixpoint decode (j : json) : value :=
  match j with
  | JNull => VNil
  | JBool b => VBool b
  | JNumber f => VFloat64 f
  | JString s => VString s
  | JArray elems => VSlice (map decode elems)
  | JObject members =>
      VMap (fold_left (fun m kv => <[kv.1 := decode kv.2]> m) members ∅)
  end.

Definition decode_object (members : list (string * json)) : gmap string value :=
  fold_left (fun m kv => <[kv.1 := decode kv.2]> m) members ∅.

(** The two library functions the code calls.  [json_document src] is the
    document the bytes [src] hold, [None] when they are not JSON;
    [json_Marshal] is [json.Marshal] at a [map[string]interface{}]. *)
Class EncodingJSON : Type := {
  json_document : bytes -> option json;
  json_Marshal : gmap string value -> bytes * option opaque_error
}.

(** [var dataMap map[string]interface{}; json.Unmarshal(src, &dataMap)]:
    the map the call leaves in [dataMap].  It is still [nil] ([None]) when
    the bytes are not JSON, when the document is [null] and when it is any
    other value than an object.  The error of [json.Unmarshal] is what the
    caller drops. *)
Definition json_Unmarshal {JSON : EncodingJSON} (src : bytes) : option (gmap string value) :=
  match json_document src with
  | Some (JObject members) => Some (decode_object members)
  | _ => None
  end.

(** ** The collaborators *)

(** [machinescope.MachineScope], the methods the manager calls.
    [SyncMachine] writes the machine that the scope holds. *)
Class MachineScope (S : Type) : Type := {
  GetMachineName : S -> string;
  GetInfraNamespace : S -> string;
  CreateIgnitionSecretFromMachine : S -> bytes -> option Secret;
  CreateVirtualMachineFromMachine : S -> option VirtualMachine * option opaque_error;
  SyncMachine : S -> VirtualMachine -> VirtualMachineInstance -> option opaque_error * S;
  UpdateAllowed : S -> Duration -> bool
}.

(** [infracluster.Client], the methods the manager and the reconciler call.
    [C] is the state of the client and of the infra cluster behind it; the
    first [string] is the namespace.  The [option Z] of
    [DeleteVirtualMachine] is [DeleteOptions.GracePeriodSeconds]. *)
Class Client (C : Type) : Type := {
  CreateVirtualMachine : C -> string -> VirtualMachine -> (option VirtualMachine * option opaque_error) * C;
  CreateSecret : C -> string -> Secret -> (option Secret * option opaque_error) * C;
  GetVirtualMachine : C -> string -> string -> (option VirtualMachine * option opaque_error) * C;
  GetVirtualMachineInstance : C -> string -> string -> (option VirtualMachineInstance * option opaque_error) * C;
  DeleteVirtualMachine : C -> string -> string -> option Z -> option opaque_error * C;
  UpdateVirtualMachine : C -> string -> VirtualMachine -> (option VirtualMachine * option opaque_error) * C
}.

(** A call made on the infra cluster client. *)
Inductive Call : Type :=
| CallCreateVirtualMachine (namespace : string) (vm : VirtualMachine)
| CallCreateSecret (namespace : string) (secret : Secret)
| CallGetVirtualMachine (namespace name : string)
| CallGetVirtualMachineInstance (namespace name : string)
| CallDeleteVirtualMachine (namespace name : string) (GracePeriodSeconds : option Z)
| CallUpdateVirtualMachine (namespace : string) (vm : VirtualMachine).

(** ** Package kubevirt: the manager *)

Module Kubevirt.

Definition requeueAfterSeconds : Z := 20.
Definition requeueAfterFatalSeconds : Z := 180.

(** [conditionFailed()]. *)
Definition conditionFailed : VirtualMachineCondition :=
  {| Type_ := VirtualMachineFailure;
     Status := ConditionTrue;
     LastProbeTime := 0;
     LastTransitionTime := 0;
     Reason := "MachineCreationFailed";
     Message := EmptyString |}.

(** [c.Message = msg] on a local copy [c]. *)
Definition set_Message (c : VirtualMachineCondition) (msg : string) : VirtualMachineCondition :=
  {| Type_ := Type_ c; Status := Status c; LastProbeTime := LastProbeTime c;
     LastTransitionTime := LastTransitionTime c; Reason := Reason c; Message := msg |}.

(** [x.(map[string]interface{})] and [x.([]map[string]interface{})] in
    their one-result form: they panic on any other dynamic type, and on the
    [nil] interface. *)
Definition assert_map (x : option value) : result (gmap string value) :=
  match x with
  | Some (VMap m) => Done m
  | _ => Panic
  end.

Definition assert_map_slice (x : option value) : result (list (gmap string value)) :=
  match x with
  | Some (VMapSlice l) => Done l
  | _ => Panic
  end.

(** The file entry that carries the host name. *)
Definition newFile (hostname : string) : gmap string value :=
  <["contents" := VMap {[ "source" := VString ("data:," +:+ hostname) ]}]>
    ({[ "filesystem" := VString "root";
        "path" := VString "/etc/hostname";
        "mode" := VInt 420 ]}).

(** The statements of [addHostnameToUserData] between [json.Unmarshal] and
    [json.Marshal], on the map [dataMap] ([None] is the [nil] map).
    [storage] is the very map that [dataMap["storage"]] holds, so what is
    assigned to [storage["files"]] is seen through [dataMap]: the result
    is the content of [dataMap] when [json.Marshal] is called. *)
Definition addHostname (dataMap : option (gmap string value)) (hostname : string)
    : result (gmap string value) :=
  match dataMap with
  | None =>
      (* [dataMap["storage"]] finds nothing in a nil map, and
         [dataMap["storage"] = ...] is an assignment to an entry of it *)
      Panic
  | Some dataMap =>
      let dataMap :=
        match dataMap !! "storage" with
        | Some _ => dataMap
        | None => <["storage" := VMap ∅]> dataMap
        end in
      match assert_map (dataMap !! "storage") with
      | Panic => Panic
      | Done storage =>
          let storage :=
            match storage !! "files" with
            | Some _ => storage
            | None => <["files" := VMapSlice []]> storage
            end in
          match assert_map_slice (storage !! "files") with
          | Panic => Panic
          | Done files =>
              let storage := <["files" := VMapSlice (files ++ [newFile hostname])]> storage in
              Done (<["storage" := VMap storage]> dataMap)
          end
      end
  end.

(** [addHostnameToUserData]. *)
Definition addHostnameToUserData {JSON : EncodingJSON} (src : bytes) (hostname : string)
    : result (bytes * option opaque_error) :=
  match addHostname (json_Unmarshal src) hostname with
  | Panic => Panic
  | Done dataMap =>
      match json_Marshal dataMap with
      | (_, Some err) => Done ([], Some err)
      | (result, None) => Done (result, None)
      end
  end.

(** [*virtualMachineFromMachine] after the two assignments of [updateVM]:
    [ObjectMeta.ResourceVersion] is the one of the existing VM, and [Status]
    is a fresh [VirtualMachineStatus] with the [Created] and [Ready] of the
    existing VM. *)
Definition carryForward (virtualMachineFromMachine existingVM : VirtualMachine)
    : VirtualMachine :=
  {| Name := Name virtualMachineFromMachine;
     Namespace := Namespace virtualMachineFromMachine;
     ResourceVersion := ResourceVersion existingVM;
     Spec := Spec virtualMachineFromMachine;
     VMStatus :=
       {| Created := Created (VMStatus existingVM);
          Ready := Ready (VMStatus existingVM);
          Conditions := [] |} |}.

Section manager.
Context {S C : Type} `{!MachineScope S} `{!Client C} {JSON : EncodingJSON}.

(** What a call of the manager runs on: the machine scope it is given,
    its [infraClusterClient], and the calls made on that client so far. *)
Record state : Type := mkState {
  scope : S;
  infraClusterClient : C;
  calls : list Call
}.

#[local] Abbreviation M := (Go state).

(** A method of the machine scope that reads it. *)
Definition ask {A : Type} (f : S -> A) : M A :=
  fun st => (Done (f (scope st)), st).

(** A call of a method of the infra cluster client. *)
Definition call {A : Type} (c : Call) (f : C -> A * C) : M A :=
  fun st =>
    let '(a, cl) := f (infraClusterClient st) in
    (Done a, {| scope := scope st; infraClusterClient := cl; calls := calls st ++ [c] |}).

Definition createInfraClusterVM (virtualMachine : option VirtualMachine)
    : M (option VirtualMachine * option opaque_error) :=
  vm ← deref virtualMachine;
  call (CallCreateVirtualMachine (Namespace vm) vm)
       (fun cl => CreateVirtualMachine cl (Namespace vm) vm).

Definition createInfraClusterSecret (secret : option Secret)
    : M (option Secret * option opaque_error) :=
  s ← deref secret;
  call (CallCreateSecret (SecretNamespace s) s)
       (fun cl => CreateSecret cl (SecretNamespace s) s).

Definition getInraClusterVM (vmName vmNamespace : string)
    : M (option VirtualMachine * option opaque_error) :=
  call (CallGetVirtualMachine vmNamespace vmName)
       (fun cl => GetVirtualMachine cl vmNamespace vmName).

Definition getInraClusterVMI (vmName vmNamespace : string)
    : M (option VirtualMachineInstance * option opaque_error) :=
  call (CallGetVirtualMachineInstance vmNamespace vmName)
       (fun cl => GetVirtualMachineInstance cl vmNamespace vmName).

Definition deleteInraClusterVM (vmName vmNamespace : string) : M (option opaque_error) :=
  let gracePeriod : Z := 10 in
  call (CallDeleteVirtualMachine vmNamespace vmName (Some gracePeriod))
       (fun cl => DeleteVirtualMachine cl vmNamespace vmName (Some gracePeriod)).

Definition updateInraClusterVM (updatedVM : VirtualMachine)
    : M (option VirtualMachine * option opaque_error) :=
  call (CallUpdateVirtualMachine (Namespace updatedVM) updatedVM)
       (fun cl => UpdateVirtualMachine cl (Namespace updatedVM) updatedVM).

(** [machineScope.SyncMachine(vm, vmi)]: it writes the scope. *)
Definition scopeSyncMachine (vm : VirtualMachine) (vmi : VirtualMachineInstance)
    : M (option opaque_error) :=
  fun st =>
    let '(err, s) := SyncMachine (scope st) vm vmi in
    (Done err, {| scope := s; infraClusterClient := infraClusterClient st; calls := calls st |}).

(** [syncMachine]: the error of the instance fetch is logged and nothing
    else; [*vmi] is evaluated whatever it was. *)
Definition syncMachine (vm : VirtualMachine) : M (option opaque_error) :=
  '(vmi, err) ← getInraClusterVMI (Name vm) (Namespace vm);
  vmi ← deref vmi;
  scopeSyncMachine vm vmi.

(** [Create]. *)
Definition Create (userData : bytes) : M (option error) :=
  machineName ← ask GetMachineName;
  '(fullUserData, err) ← lift (addHostnameToUserData userData machineName);
  match err with
  | Some err => mret (Some (Opaque err))
  | None =>
      secretFromMachine ← ask (fun s => CreateIgnitionSecretFromMachine s fullUserData);
      '(_, err) ← createInfraClusterSecret secretFromMachine;
      match err with
      | Some err =>
          let conditionFailed := set_Message conditionFailed (error_text err) in
          mret (Some (Errorf_w "failed to create ignition secret" err))
      | None =>
          '(virtualMachineFromMachine, err) ← ask CreateVirtualMachineFromMachine;
          match err with
          | Some err => mret (Some (Opaque err))
          | None =>
              '(createdVM, err) ← createInfraClusterVM virtualMachineFromMachine;
              match err with
              | Some err =>
                  let conditionFailed := set_Message conditionFailed (error_text err) in
                  mret (Some (Errorf_w "failed to create virtual machine" err))
              | None =>
                  createdVM ← deref createdVM;
                  err ← syncMachine createdVM;
                  match err with
                  | Some err => mret (Some (Opaque err))
                  | None => mret None
                  end
              end
          end
      end
  end.

(** [Delete]. *)
Definition Delete : M (option error) :=
  '(virtualMachineFromMachine, err) ← ask CreateVirtualMachineFromMachine;
  match err with
  | Some err => mret (Some (Opaque err))
  | None =>
      vm ← deref virtualMachineFromMachine;
      '(existingVM, err) ← getInraClusterVM (Name vm) (Namespace vm);
      match err with
      | Some err =>
          if IsNotFound err then mret None
          else mret (Some (Opaque err))
      | None =>
          match existingVM with
          | None => mret None
          | Some existingVM =>
              err ← deleteInraClusterVM (Name existingVM) (Namespace existingVM);
              match err with
              | Some err => mret (Some (Errorf_w "failed to delete VM" err))
              | None => mret None
              end
          end
      end
  end.

(** [updateVM].  The [err] parameter of the Go function is shadowed at
    once and is left out. *)
Definition updateVM (virtualMachineFromMachine : option VirtualMachine)
    : M (bool * option VirtualMachine * option error) :=
  vm ← deref virtualMachineFromMachine;
  '(existingVM, err) ← getInraClusterVM (Name vm) (Namespace vm);
  match err with
  | Some err => mret (false, None, Some (Opaque err))
  | None =>
      match existingVM with
      | None =>
          allowed ← ask (fun s => UpdateAllowed s requeueAfterSeconds);
          if allowed : bool
          then mret (false, None, Some (RequeueAfterError (requeueAfterSeconds * Second)))
          else mret (false, None, Some (RequeueAfterError (requeueAfterFatalSeconds * Second)))
      | Some existingVM =>
          let previousResourceVersion := ResourceVersion existingVM in
          let vm := carryForward vm existingVM in
          '(updatedVM, err) ← updateInraClusterVM vm;
          match err with
          | Some err => mret (false, None, Some (Errorf_w "failed to update VM" err))
          | None =>
              updated ← deref updatedVM;
              let currentResourceVersion := ResourceVersion updated in
              let wasUpdated :=
                negb (bool_decide (previousResourceVersion = currentResourceVersion)) in
              mret (wasUpdated, updatedVM, None)
          end
      end
  end.

(** [Update]. *)
Definition Update : M (bool * option error) :=
  '(virtualMachineFromMachine, err) ← ask CreateVirtualMachineFromMachine;
  match err with
  | Some err => mret (false, Some (Opaque err))
  | None =>
      '(wasUpdated, updatedVM, err) ← updateVM virtualMachineFromMachine;
      match err with
      | Some err => mret (false, Some err)
      | None =>
          updatedVM ← deref updatedVM;
          err ← syncMachine updatedVM;
          match err with
          | Some err => mret (false, Some (Opaque err))
          | None => mret (wasUpdated, None)
          end
      end
  end.

(** [Exists]. *)
Definition Exists : M (bool * option error) :=
  machineName ← ask GetMachineName;
  infraNamespace ← ask GetInfraNamespace;
  '(existingVM, err) ← getInraClusterVM machineName infraNamespace;
  match err with
  | Some err =>
      if IsNotFound err then mret (false, None)
      else mret (false, Some (Opaque err))
  | None =>
      match existingVM with
      | None => mret (false, None)
      | Some _ => mret (true, None)
      end
  end.

(** What the claim of [wasUpdated] says of a state: when the get finds the VM and the update
    call succeeds, [Update] returns in [wasUpdated] whether the resource
    version changed. *)
Definition Update_reports_version_change (st : state) : Prop :=
  ∀ vm (existingVM updatedVM : VirtualMachine) (c1 c2 : C),
    CreateVirtualMachineFromMachine (scope st) = (Some vm, None) →
    GetVirtualMachine (infraClusterClient st) (Namespace vm) (Name vm)
      = ((Some existingVM, None), c1) →
    UpdateVirtualMachine c1 (Namespace vm) (carryForward vm existingVM)
      = ((Some updatedVM, None), c2) →
    ∃ e : option error,
      (Update st).1
      = Done (negb (bool_decide (ResourceVersion existingVM = ResourceVersion updatedVM)), e).
End manager.
End Kubevirt.

(** ** Package providerid: the providerID reconciler *)

(** [client.Client] of controller-runtime on nodes.  [Get] gives the node
    it leaves in the [corev1.Node{}] it is handed. *)
Class NodeClient (K : Type) : Type := {
  Get : K -> string * string -> (Node * option opaque_error) * K;
  Update : K -> Node -> option opaque_error * K
}.

(** [tenantcluster.Client], the methods the two revisions of the reconciler
    call.  [GetConfigMapValue] returns a [*map[string]string]. *)
Class TenantClient (T : Type) : Type := {
  GetNamespace : T -> (string * option opaque_error) * T;
  GetConfigMapValue : T -> string -> string -> string ->
                      (option (gmap string string) * option opaque_error) * T
}.

(** [reconcile.Result]. *)
Record Result : Type := mkResult {
  Requeue : bool;
  RequeueAfter : Duration
}.

Module ProviderID.

Definition ConfigMapNamespace : string := "openshift-config".
Definition ConfigMapName : string := "cloud-provider-config".
Definition ConfigMapDataKeyName : string := "config".
Definition ConfigMapInfraNamespaceKeyName : string := "namespace".

(** [FormatProviderID]: [fmt.Sprintf("kubevirt://%s/%s", namespace, name)]. *)
Definition FormatProviderID (namespace name : string) : string :=
  "kubevirt://" +:+ namespace +:+ "/" +:+ name.

(** A call made by the reconciler on one of its three clients. *)
Inductive Call : Type :=
| CallGet (request : string * string)
| CallUpdate (node : Node)
| CallGetNamespace
| CallGetConfigMapValue (name namespace key : string)
| CallGetVirtualMachineInstance (namespace name : string).

Section reconciler.
Context {K C T : Type} `{!NodeClient K} `{!Client C} `{!TenantClient T}.

(** [providerIDReconciler], with the calls made so far. *)
Record state : Type := mkState {
  client : K;
  infraClusterClient : C;
  tenantClusterClient : T;
  calls : list Call
}.

#[local] Abbreviation M := (Go state).

Definition clientGet (request : string * string) : M (Node * option opaque_error) :=
  fun st =>
    let '(r, k) := Get (client st) request in
    (Done r, {| client := k; infraClusterClient := infraClusterClient st;
                tenantClusterClient := tenantClusterClient st;
                calls := calls st ++ [CallGet request] |}).

Definition clientUpdate (node : Node) : M (option opaque_error) :=
  fun st =>
    let '(r, k) := Update (client st) node in
    (Done r, {| client := k; infraClusterClient := infraClusterClient st;
                tenantClusterClient := tenantClusterClient st;
                calls := calls st ++ [CallUpdate node] |}).

Definition tenantGetNamespace : M (string * option opaque_error) :=
  fun st =>
    let '(r, t) := GetNamespace (tenantClusterClient st) in
    (Done r, {| client := client st; infraClusterClient := infraClusterClient st;
                tenantClusterClient := t;
                calls := calls st ++ [CallGetNamespace] |}).

Definition tenantGetConfigMapValue (name namespace key : string)
    : M (option (gmap string string) * option opaque_error) :=
  fun st =>
    let '(r, t) := GetConfigMapValue (tenantClusterClient st) name namespace key in
    (Done r, {| client := client st; infraClusterClient := infraClusterClient st;
                tenantClusterClient := t;
                calls := calls st ++ [CallGetConfigMapValue name namespace key] |}).

Definition infraGetVirtualMachineInstance (namespace name : string)
    : M (option VirtualMachineInstance * option opaque_error) :=
  fun st =>
    let '(r, c) := GetVirtualMachineInstance (infraClusterClient st) namespace name in
    (Done r, {| client := client st; infraClusterClient := c;
                tenantClusterClient := tenantClusterClient st;
                calls := calls st ++ [CallGetVirtualMachineInstance namespace name] |}).

(** [reconcile.Result{}]. *)
Definition noRequeue : Result := {| Requeue := false; RequeueAfter := 0 |}.

Definition set_ProviderID (node : Node) (id : string) : Node :=
  {| NodeName := NodeName node; ProviderID := id |}.

(** *** The revision that reads the namespace with [GetNamespace] *)

Definition getVMName (nodeName : string) : M (string * option error) :=
  '(infraClusterNamespace, err) ← tenantGetNamespace;
  match err with
  | Some err => mret (EmptyString, Some (Errorf_v "failed to get infraCluster namespace" err))
  | None =>
      '(vmi, err) ← infraGetVirtualMachineInstance infraClusterNamespace nodeName;
      match err with
      | Some err => mret (EmptyString, Some (Opaque err))
      | None =>
          vmi ← deref vmi;
          mret (VMIName vmi, None)
      end
  end.

Definition Reconcile (request : string * string) : M (Result * option error) :=
  '(node, err) ← clientGet request;
  match err with
  | Some err =>
      if IsNotFound err then mret (noRequeue, None)
      else mret (noRequeue, Some (Errorf_v "error getting node" err))
  | None =>
      if negb (bool_decide (ProviderID node = EmptyString)) then mret (noRequeue, None)
      else
        '(id, err) ← getVMName (NodeName node);
        match err with
        | Some err => mret (noRequeue, Some err)
        | None =>
            '(infraClusterNamespace, err) ← tenantGetNamespace;
            match err with
            | Some err =>
                mret (noRequeue, Some (Errorf_v "failed to get infraCluster namespace" err))
            | None =>
                let node := set_ProviderID node (FormatProviderID infraClusterNamespace id) in
                err ← clientUpdate node;
                match err with
                | Some err =>
                    mret (noRequeue,
                          Some (Errorf_v ("failed updating node " +:+ NodeName node) err))
                | None => mret (noRequeue, None)
                end
            end
        end
  end.

(** *** The revision that reads the namespace from the config map *)

Definition getVMName' (nodeName infraClusterNamespace : string) : M (string * option error) :=
  '(vmi, err) ← infraGetVirtualMachineInstance infraClusterNamespace nodeName;
  match err with
  | Some err => mret (EmptyString, Some (Opaque err))
  | None =>
      vmi ← deref vmi;
      mret (VMIName vmi, None)
  end.

Definition Reconcile' (request : string * string) : M (Result * option error) :=
  '(node, err) ← clientGet request;
  match err with
  | Some err =>
      if IsNotFound err then mret (noRequeue, None)
      else mret (noRequeue, Some (Errorf_v "error getting node" err))
  | None =>
      if negb (bool_decide (ProviderID node = EmptyString)) then mret (noRequeue, None)
      else
        '(cMap, err) ← tenantGetConfigMapValue ConfigMapName ConfigMapNamespace ConfigMapDataKeyName;
        match err with
        | Some _ => mret (noRequeue, None)
        | None =>
            cMap ← deref cMap;
            match cMap !! ConfigMapInfraNamespaceKeyName with
            | None =>
                mret (noRequeue,
                      Some (MachineError "InvalidConfiguration"
                              ("ProviderID: configMap " +:+ ConfigMapNamespace +:+ "/"
                               +:+ ConfigMapName +:+ ": The map extracted with key "
                               +:+ ConfigMapDataKeyName +:+ " doesn't contain key "
                               +:+ ConfigMapInfraNamespaceKeyName)))
            | Some infraClusterNamespace =>
                '(id, err) ← getVMName' (NodeName node) infraClusterNamespace;
                match err with
                | Some err => mret (noRequeue, Some err)
                | None =>
                    let node := set_ProviderID node (FormatProviderID infraClusterNamespace id) in
                    err ← clientUpdate node;
                    match err with
                    | Some err =>
                        mret (noRequeue,
                              Some (Errorf_v ("failed updating node " +:+ NodeName node) err))
                    | None => mret (noRequeue, None)
                    end
                end
            end
        end
  end.
End reconciler.
End ProviderID.

(** ** Mock collaborators

    The tests of the repository run the manager on generated mocks of the
    clients and on stub objects; these are their counterparts.  A mock
    answers every call of a method with the answer it was made with. *)

Module Mock.

(** A mock of [infracluster.Client]. *)
Record client : Type := mkClient {
  onCreateVirtualMachine : option VirtualMachine * option opaque_error;
  onCreateSecret : option Secret * option opaque_error;
  onGetVirtualMachine : option VirtualMachine * option opaque_error;
  onGetVirtualMachineInstance : option VirtualMachineInstance * option opaque_error;
  onDeleteVirtualMachine : option opaque_error;
  onUpdateVirtualMachine : option VirtualMachine * option opaque_error
}.

#[global] Instance client_Client : Client client := {
  CreateVirtualMachine c _ _ := (onCreateVirtualMachine c, c);
  CreateSecret c _ _ := (onCreateSecret c, c);
  GetVirtualMachine c _ _ := (onGetVirtualMachine c, c);
  GetVirtualMachineInstance c _ _ := (onGetVirtualMachineInstance c, c);
  DeleteVirtualMachine c _ _ _ := (onDeleteVirtualMachine c, c);
  UpdateVirtualMachine c _ _ := (onUpdateVirtualMachine c, c)
}.

(** A stub machine scope: the machine's name, the infra namespace, the
    condition list of the machine's provider status, the answers of its
    methods, and what [SyncMachine] was last given. *)
Record machineScope : Type := mkScope {
  machineName : string;
  infraNamespace : string;
  providerStatusConditions : list VirtualMachineCondition;
  virtualMachineFromMachine : option VirtualMachine * option opaque_error;
  updateAllowed : bool;
  syncError : option opaque_error;
  synced : option (VirtualMachine * VirtualMachineInstance)
}.

(** [stubIgnitionSecret]. *)
Definition stubIgnitionSecret (s : machineScope) (userData : bytes) : Secret :=
  {| SecretName := machineName s +:+ "-ignition";
     SecretNamespace := infraNamespace s;
     SecretData := {[ "userdata" := userData ]} |}.

#[global] Instance machineScope_MachineScope : MachineScope machineScope := {
  GetMachineName := machineName;
  GetInfraNamespace := infraNamespace;
  CreateIgnitionSecretFromMachine s userData := Some (stubIgnitionSecret s userData);
  CreateVirtualMachineFromMachine := virtualMachineFromMachine;
  SyncMachine s vm vmi :=
    (syncError s,
     {| machineName := machineName s;
        infraNamespace := infraNamespace s;
        providerStatusConditions := providerStatusConditions s;
        virtualMachineFromMachine := virtualMachineFromMachine s;
        updateAllowed := updateAllowed s;
        syncError := syncError s;
        synced := Some (vm, vmi) |});
  UpdateAllowed s _ := updateAllowed s
}.

(** encoding/json with a decoder that reads every input as [doc] and an
    encoder that always gives [out]. *)
Definition encodingJSON (doc : option json) (out : bytes * option opaque_error) : EncodingJSON :=
  {| json_document _ := doc; json_Marshal _ := out |}.

(** A mock of the controller-runtime client and of the tenant client. *)
Record nodeClient : Type := mkNodeClient {
  onGet : Node * option opaque_error;
  onUpdate : option opaque_error
}.

#[global] Instance nodeClient_NodeClient : NodeClient nodeClient := {
  Get k _ := (onGet k, k);
  Update k _ := (onUpdate k, k)
}.

Record tenantClient : Type := mkTenantClient {
  onGetNamespace : string * option opaque_error;
  onGetConfigMapValue : option (gmap string string) * option opaque_error
}.

#[global] Instance tenantClient_TenantClient : TenantClient tenantClient := {
  GetNamespace t := (onGetNamespace t, t);
  GetConfigMapValue t _ _ _ := (onGetConfigMapValue t, t)
}.

(** The objects of the tests. *)
Definition mahcineName : string := "machine-test".
Definition clusterID : string := "kubevirt-actuator-cluster".

Definition notFound : opaque_error :=
  {| error_text := "virtualmachine.kubevirt.io machine-test not found";
     status_reason := Some "NotFound" |}.
Definition plainError : opaque_error :=
  {| error_text := "test error"; status_reason := None |}.

Definition stubVirtualMachine (resourceVersion : string) : VirtualMachine :=
  {| Name := mahcineName;
     Namespace := clusterID;
     ResourceVersion := resourceVersion;
     Spec := EmptyString;
     VMStatus := {| Created := true; Ready := true; Conditions := [] |} |}.

Definition stubVmi : VirtualMachineInstance :=
  {| VMIName := mahcineName; VMINamespace := clusterID; Phase := "Running"; Interfaces := [] |}.

Definition stubMachineScope : machineScope :=
  {| machineName := mahcineName;
     infraNamespace := clusterID;
     providerStatusConditions := [];
     virtualMachineFromMachine := (Some (stubVirtualMachine EmptyString), None);
     updateAllowed := true;
     syncError := None;
     synced := None |}.

(** A client on which every call succeeds. *)
Definition stubClient : client :=
  {| onCreateVirtualMachine := (Some (stubVirtualMachine "1"), None);
     onCreateSecret := (None, None);
     onGetVirtualMachine := (Some (stubVirtualMachine "1"), None);
     onGetVirtualMachineInstance := (Some stubVmi, None);
     onDeleteVirtualMachine := None;
     onUpdateVirtualMachine := (Some (stubVirtualMachine "1"), None) |}.

(** [userDataValue], the text of the document with the one member [key1],
    and the document. *)
Definition quote : string := String "034"%char EmptyString.
Definition userDataValue : bytes :=
  String.list_byte_of_string
    ("{" +:+ quote +:+ "key1" +:+ quote +:+ ":" +:+ quote +:+ "value1" +:+ quote +:+ "}").
Definition userDataDocument : json := JObject [("key1", JString "value1")].

(** [userDataValueFull], the text that the tests expect in the secret. *)
Definition userDataValueFull : bytes :=
  let q := quote in
  String.list_byte_of_string
    ("{" +:+ q +:+ "key1" +:+ q +:+ ":" +:+ q +:+ "value1" +:+ q +:+ ","
         +:+ q +:+ "storage" +:+ q +:+ ":{" +:+ q +:+ "files" +:+ q +:+ ":[{"
         +:+ q +:+ "contents" +:+ q +:+ ":{" +:+ q +:+ "source" +:+ q +:+ ":"
         +:+ q +:+ "data:,machine-test" +:+ q +:+ "},"
         +:+ q +:+ "filesystem" +:+ q +:+ ":" +:+ q +:+ "root" +:+ q +:+ ","
         +:+ q +:+ "mode" +:+ q +:+ ":420,"
         +:+ q +:+ "path" +:+ q +:+ ":" +:+ q +:+ "/etc/hostname" +:+ q +:+ "}]}}").

(** encoding/json on the boot config of the tests. *)
Definition userDataJSON : EncodingJSON :=
  encodingJSON (Some userDataDocument) (userDataValueFull, None).

(** A boot config that already lists files: [{"storage":{"files":[]}}]. *)
Definition storageFilesDocument : json :=
  JObject [("storage", JObject [("files", JArray [])])].
Definition storageFilesUserData : bytes :=
  let q := quote in
  String.list_byte_of_string
    ("{" +:+ q +:+ "storage" +:+ q +:+ ":{" +:+ q +:+ "files" +:+ q +:+ ":[]}}").
Definition storageFilesJSON : EncodingJSON :=
  encodingJSON (Some storageFilesDocument) ([], None).

(** Bytes that are not JSON. *)
Definition malformedUserData : bytes := String.list_byte_of_string "not json".
Definition malformedJSON : EncodingJSON := encodingJSON None ([], None).

(** Clients on which one call fails. *)
Definition secretFails : client :=
  {| onCreateVirtualMachine := onCreateVirtualMachine stubClient;
     onCreateSecret := (None, Some plainError);
     onGetVirtualMachine := onGetVirtualMachine stubClient;
     onGetVirtualMachineInstance := onGetVirtualMachineInstance stubClient;
     onDeleteVirtualMachine := onDeleteVirtualMachine stubClient;
     onUpdateVirtualMachine := onUpdateVirtualMachine stubClient |}.

Definition vmCreationFails : client :=
  {| onCreateVirtualMachine := (None, Some plainError);
     onCreateSecret := onCreateSecret stubClient;
     onGetVirtualMachine := onGetVirtualMachine stubClient;
     onGetVirtualMachineInstance := onGetVirtualMachineInstance stubClient;
     onDeleteVirtualMachine := onDeleteVirtualMachine stubClient;
     onUpdateVirtualMachine := onUpdateVirtualMachine stubClient |}.

(** The instance of the VM is not there yet. *)
Definition instanceNotFound : client :=
  {| onCreateVirtualMachine := onCreateVirtualMachine stubClient;
     onCreateSecret := onCreateSecret stubClient;
     onGetVirtualMachine := onGetVirtualMachine stubClient;
     onGetVirtualMachineInstance := (None, Some notFound);
     onDeleteVirtualMachine := onDeleteVirtualMachine stubClient;
     onUpdateVirtualMachine := onUpdateVirtualMachine stubClient |}.

(** The get of the VM gives no object and no error. *)
Definition noVirtualMachine : client :=
  {| onCreateVirtualMachine := onCreateVirtualMachine stubClient;
     onCreateSecret := onCreateSecret stubClient;
     onGetVirtualMachine := (None, None);
     onGetVirtualMachineInstance := onGetVirtualMachineInstance stubClient;
     onDeleteVirtualMachine := onDeleteVirtualMachine stubClient;
     onUpdateVirtualMachine := onUpdateVirtualMachine stubClient |}.

(** The update call moves the resource version from 1 to 2. *)
Definition versionMoves : client :=
  {| onCreateVirtualMachine := onCreateVirtualMachine stubClient;
     onCreateSecret := onCreateSecret stubClient;
     onGetVirtualMachine := onGetVirtualMachine stubClient;
     onGetVirtualMachineInstance := onGetVirtualMachineInstance stubClient;
     onDeleteVirtualMachine := onDeleteVirtualMachine stubClient;
     onUpdateVirtualMachine := (Some (stubVirtualMachine "2"), None) |}.

(** A machine scope whose [SyncMachine] fails. *)
Definition syncFails : machineScope :=
  {| machineName := machineName stubMachineScope;
     infraNamespace := infraNamespace stubMachineScope;
     providerStatusConditions := providerStatusConditions stubMachineScope;
     virtualMachineFromMachine := virtualMachineFromMachine stubMachineScope;
     updateAllowed := updateAllowed stubMachineScope;
     syncError := Some plainError;
     synced := None |}.

(** A node that has its [providerID], and the clients of the reconciler. *)
Definition assignedNode : Node :=
  {| NodeName := mahcineName; ProviderID := "kubevirt://kubevirt-actuator-cluster/machine-test" |}.
Definition stubNodeClient : nodeClient :=
  {| onGet := (assignedNode, None); onUpdate := None |}.
Definition stubTenantClient : tenantClient :=
  {| onGetNamespace := (clusterID, None);
     onGetConfigMapValue := (Some {[ "namespace" := clusterID ]}, None) |}.

(** The document of the tests, [userDataValueFull], as the value that is
    handed to [json.Marshal]. *)
Definition userDataValueFullMap : gmap string value :=
  {[ "key1" := VString "value1";
     "storage" :=
       VMap {[ "files" :=
                 VMapSlice
                   [ {[ "contents" := VMap {[ "source" := VString "data:,machine-test" ]};
                        "filesystem" := VString "root";
                        "mode" := VInt 420;
                        "path" := VString "/etc/hostname" ]} ] ]} ]}.

(** A condition that the machine already carries, and the same
    observation made again at a later time. *)
Definition failureSeen : VirtualMachineCondition :=
  {| Type_ := VirtualMachineFailure; Status := ConditionTrue;
     LastProbeTime := 1; LastTransitionTime := 1;
     Reason := "MachineCreationFailed"; Message := "test error" |}.
Definition failureSeenAgain : VirtualMachineCondition :=
  {| Type_ := VirtualMachineFailure; Status := ConditionTrue;
     LastProbeTime := 5; LastTransitionTime := 5;
     Reason := "MachineCreationFailed"; Message := "test error" |}.

(** Further mocks: encoding/json whose encoder fails, a machine scope that
    cannot derive the VM, and clients on which the get or the update of the
    VM fails or the instance comes with an error. *)
Definition marshalFailsJSON : EncodingJSON :=
  encodingJSON (Some userDataDocument) ([], Some plainError).

Definition deriveFails : machineScope :=
  {| machineName := machineName stubMachineScope;
     infraNamespace := infraNamespace stubMachineScope;
     providerStatusConditions := providerStatusConditions stubMachineScope;
     virtualMachineFromMachine := (None, Some plainError);
     updateAllowed := updateAllowed stubMachineScope;
     syncError := None;
     synced := None |}.

Definition getFails : client :=
  {| onCreateVirtualMachine := onCreateVirtualMachine stubClient;
     onCreateSecret := onCreateSecret stubClient;
     onGetVirtualMachine := (None, Some notFound);
     onGetVirtualMachineInstance := onGetVirtualMachineInstance stubClient;
     onDeleteVirtualMachine := onDeleteVirtualMachine stubClient;
     onUpdateVirtualMachine := onUpdateVirtualMachine stubClient |}.

Definition getBreaks : client :=
  {| onCreateVirtualMachine := onCreateVirtualMachine stubClient;
     onCreateSecret := onCreateSecret stubClient;
     onGetVirtualMachine := (None, Some plainError);
     onGetVirtualMachineInstance := onGetVirtualMachineInstance stubClient;
     onDeleteVirtualMachine := onDeleteVirtualMachine stubClient;
     onUpdateVirtualMachine := onUpdateVirtualMachine stubClient |}.

Definition updateFails : client :=
  {| onCreateVirtualMachine := onCreateVirtualMachine stubClient;
     onCreateSecret := onCreateSecret stubClient;
     onGetVirtualMachine := onGetVirtualMachine stubClient;
     onGetVirtualMachineInstance := onGetVirtualMachineInstance stubClient;
     onDeleteVirtualMachine := onDeleteVirtualMachine stubClient;
     onUpdateVirtualMachine := (None, Some plainError) |}.

Definition instanceWithError : client :=
  {| onCreateVirtualMachine := onCreateVirtualMachine stubClient;
     onCreateSecret := onCreateSecret stubClient;
     onGetVirtualMachine := onGetVirtualMachine stubClient;
     onGetVirtualMachineInstance := (Some stubVmi, Some plainError);
     onDeleteVirtualMachine := onDeleteVirtualMachine stubClient;
     onUpdateVirtualMachine := onUpdateVirtualMachine stubClient |}.

(** A machine scope past the grace window: [UpdateAllowed] is false. *)
Definition graceElapsed : machineScope :=
  {| machineName := machineName stubMachineScope;
     infraNamespace := infraNamespace stubMachineScope;
     providerStatusConditions := providerStatusConditions stubMachineScope;
     virtualMachineFromMachine := virtualMachineFromMachine stubMachineScope;
     updateAllowed := false;
     syncError := None;
     synced := None |}.

(** A node without [providerID], and clients of the reconciler on which
    the read of the node or of the configuration fails. *)
Definition unassignedNode : Node :=
  {| NodeName := mahcineName; ProviderID := EmptyString |}.
Definition unassignedNodeClient : nodeClient :=
  {| onGet := (unassignedNode, None); onUpdate := None |}.
Definition nodeGone : nodeClient :=
  {| onGet := (unassignedNode, Some notFound); onUpdate := None |}.
Definition configFails : tenantClient :=
  {| onGetNamespace := (EmptyString, Some plainError);
     onGetConfigMapValue := (None, Some plainError) |}.
Definition configWithoutNamespace : tenantClient :=
  {| onGetNamespace := (clusterID, None);
     onGetConfigMapValue := (Some ∅, None) |}.

End Mock.

(** ** Strings *)

(** Whether the string has a [/]. *)
Fixpoint contains_slash (s : string) : bool :=
  match s with
  | EmptyString => false
  | String a rest => bool_decide (a = "/"%char) || contains_slash rest
  end.

(** ** Running the code in proofs *)

Ltac go_unfold :=
  unfold Kubevirt.Create, Kubevirt.Delete, Kubevirt.Update, Kubevirt.updateVM,
    Kubevirt.Exists, Kubevirt.syncMachine, Kubevirt.scopeSyncMachine,
    Kubevirt.createInfraClusterVM, Kubevirt.createInfraClusterSecret,
    Kubevirt.getInraClusterVM, Kubevirt.getInraClusterVMI,
    Kubevirt.deleteInraClusterVM, Kubevirt.updateInraClusterVM,
    Kubevirt.ask, Kubevirt.call, deref, lift, mbind, Go_bind, mret, Go_ret;
  cbn.

Ltac go_with H := rewrite H; cbn.

(** A case analysis on the innermost value that the code branches on. *)
Ltac go_case :=
  match goal with
  | |- context [match ?x with _ => _ end] =>
      lazymatch x with
      | context [match _ with _ => _ end] => fail
      | _ => destruct x eqn:?
      end
  end.

Ltac go_cases := repeat (go_case; cbn in *).

Ltac reconcile_unfold :=
  unfold ProviderID.Reconcile, ProviderID.Reconcile', ProviderID.getVMName,
    ProviderID.getVMName', ProviderID.clientGet, ProviderID.clientUpdate,
    ProviderID.tenantGetNamespace, ProviderID.tenantGetConfigMapValue,
    ProviderID.infraGetVirtualMachineInstance, deref, lift, mbind, Go_bind, mret, Go_ret;
  cbn.

(** * Properties *)

(** ** The provider-condition helper *)

Section ConditionsSpec.
Import Conditions.
Implicit Types (conditions : list VirtualMachineCondition).
Implicit Types (condition c : VirtualMachineCondition).

Lemma findProviderCondition_None conditions t :
  findProviderCondition conditions t = None ↔ t ∉ Type_ <$> conditions.
Proof.
  induction conditions as [|c rest IH]; simpl.
  - split; [intros _; apply not_elem_of_nil | done].
  - rewrite not_elem_of_cons. case_bool_decide as Hc.
    + split; [done | intros [Hne _]; congruence].
    + rewrite fmap_None, IH. split; [intros ?; split; [congruence | done] | tauto].
Qed.

Lemma findProviderCondition_Some conditions t i :
  findProviderCondition conditions t = Some i →
  ∃ c, conditions !! i = Some c ∧ Type_ c = t.
Proof.
  revert i. induction conditions as [|c rest IH]; intros i; simpl; [done|].
  case_bool_decide as Hc.
  - intros [= <-]. eauto.
  - intros (j & Hj & ->)%fmap_Some. apply IH in Hj. done.
Qed.

Lemma findProviderCondition_NoDup conditions t i j c :
  NoDup (Type_ <$> conditions) →
  findProviderCondition conditions t = Some i →
  conditions !! j = Some c → Type_ c = t → j = i.
Proof.
  revert i j. induction conditions as [|c0 rest IH]; intros i j; simpl; [done|].
  rewrite NoDup_cons. intros [Hnotin Hnd]. case_bool_decide as Hc.
  - intros [= <-] Hj Ht. destruct j as [|j]; [done|]. simpl in Hj.
    exfalso. apply Hnotin. rewrite Hc, <- Ht.
    apply list_elem_of_fmap. exists c. split; [done|].
    by eapply list_elem_of_lookup_2.
  - intros (i' & Hi' & ->)%fmap_Some Hj Ht. destruct j as [|j]; simpl in Hj.
    + congruence.
    + f_equal. by eapply IH.
Qed.

Lemma updateExistingCondition_Type now' condition c :
  Type_ (updateExistingCondition now' condition c) = Type_ c.
Proof. unfold updateExistingCondition. by destruct (negb _). Qed.

(** The transition time of an existing condition moves only together
    with its status. *)
Lemma updateExistingCondition_transition now' condition c :
  LastTransitionTime (updateExistingCondition now' condition c) ≠ LastTransitionTime c →
  Status (updateExistingCondition now' condition c) ≠ Status c.
Proof.
  unfold updateExistingCondition. destruct (negb _); simpl; [done|].
  case_bool_decide; [done | congruence].
Qed.

(** Nothing at all is written when reason and message are those of the
    existing condition. *)
Lemma updateExistingCondition_same now' condition c :
  Reason condition = Reason c → Message condition = Message c →
  updateExistingCondition now' condition c = c.
Proof.
  intros HR HM. unfold updateExistingCondition, shouldUpdateCondition.
  by rewrite !bool_decide_eq_true_2 by done.
Qed.

Lemma updateExistingCondition_changed now' condition c :
  Reason condition ≠ Reason c ∨ Message condition ≠ Message c →
  LastProbeTime (updateExistingCondition now' condition c) = LastProbeTime condition.
Proof.
  intros H. unfold updateExistingCondition, shouldUpdateCondition.
  destruct H as [H|H].
  - by rewrite (bool_decide_eq_false_2 _ H).
  - rewrite (bool_decide_eq_false_2 _ H). by rewrite orb_true_r.
Qed.

Lemma setKubevirtMachineProviderCondition_types now now' condition conditions :
  Type_ <$> setKubevirtMachineProviderCondition now now' condition conditions
  = ((Type_ <$> conditions)
     ++ match findProviderCondition conditions (Type_ condition) with
        | Some _ => []
        | None => [Type_ condition]
        end)%list.
Proof.
  unfold setKubevirtMachineProviderCondition.
  destruct (findProviderCondition _ _) as [i|].
  - rewrite app_nil_r. apply list_eq. intros j. rewrite !list_lookup_fmap.
    destruct (decide (i = j)) as [->|Hne].
    + rewrite list_lookup_alter_eq. destruct (conditions !! j); simpl; [|done].
      by rewrite updateExistingCondition_Type.
    + by rewrite list_lookup_alter_ne.
  - by rewrite fmap_app.
Qed.
End ConditionsSpec.

Section ConditionsClaims.
Import Conditions Mock.

(** C5, counterexample.  The claim has [lastProbeTime] updated on every
    observation.  Writing, at time 5 (and 6 for the second clock
    reading), a failure condition with the reason and message of the one
    the list holds since time 1 leaves the list as it was: the probe time
    is still 1, neither clock reading and not even the probe time the
    written condition carries. *)
Lemma setKubevirtMachineProviderCondition_probe_time_stale :
  setKubevirtMachineProviderCondition 5 6 failureSeenAgain [failureSeen] = [failureSeen]
  ∧ ¬ lastProbeTime_updated 5 6 failureSeenAgain [failureSeen].
Proof.
  split; [reflexivity|].
  intros H. destruct (H failureSeen) as [H'|H'].
  - change (failureSeen ∈ [failureSeen]). apply list_elem_of_here.
  - reflexivity.
  - discriminate H'.
  - discriminate H'.
Qed.

(** C5, as the code has it.  On a condition list with one condition per
    type, writing a condition through the helper
    - leaves one condition per type;
    - keeps every condition at its index and with its type, moves its
      [LastTransitionTime] only if its [Status] changes, and touches none
      but the one of the written type (replace in place);
    - writes nothing at all to the existing condition, its probe time
      included, when reason and message are the ones it has; when one of
      them differs the existing condition takes the [LastProbeTime] that
      the written condition carries;
    - appends nothing when the type is present, and otherwise appends the
      written condition with both times set to the time of the call. *)
Theorem setKubevirtMachineProviderCondition_spec
    (now now' : Time) (condition : VirtualMachineCondition)
    (conditions : list VirtualMachineCondition) :
  NoDup (Type_ <$> conditions) →
  let result := setKubevirtMachineProviderCondition now now' condition conditions in
  NoDup (Type_ <$> result)
  ∧ (∀ i c, conditions !! i = Some c →
       ∃ c', result !! i = Some c'
         ∧ Type_ c' = Type_ c
         ∧ (LastTransitionTime c' ≠ LastTransitionTime c → Status c' ≠ Status c)
         ∧ (Type_ c ≠ Type_ condition → c' = c)
         ∧ (Reason condition = Reason c → Message condition = Message c → c' = c)
         ∧ (Type_ c = Type_ condition →
            Reason condition ≠ Reason c ∨ Message condition ≠ Message c →
            LastProbeTime c' = LastProbeTime condition))
  ∧ (Type_ condition ∈ Type_ <$> conditions → length result = length conditions)
  ∧ (Type_ condition ∉ Type_ <$> conditions →
       result = conditions ++
         [ {| Type_ := Type_ condition; Status := Status condition;
              LastProbeTime := now; LastTransitionTime := now;
              Reason := Reason condition; Message := Message condition |} ]).
Proof.
  intros Hnd result. split; [|split; [|split]].
  - subst result. rewrite setKubevirtMachineProviderCondition_types.
    destruct (findProviderCondition conditions (Type_ condition)) as [i|] eqn:Hfind.
    + by rewrite app_nil_r.
    + apply findProviderCondition_None in Hfind.
      apply NoDup_app. split; [done|]. split; [|apply NoDup_singleton].
      intros t Ht ->%list_elem_of_singleton. done.
  - intros i c Hc. subst result. unfold setKubevirtMachineProviderCondition.
    destruct (findProviderCondition conditions (Type_ condition)) as [k|] eqn:Hfind.
    + destruct (decide (k = i)) as [->|Hne].
      * exists (updateExistingCondition now' condition c).
        rewrite list_lookup_alter_eq, Hc. simpl.
        destruct (findProviderCondition_Some _ _ _ Hfind) as (c0 & Hc0 & Ht).
        assert (c0 = c) as -> by congruence.
        split; [done|]. split; [apply updateExistingCondition_Type|].
        split; [apply updateExistingCondition_transition|].
        split; [congruence|].
        split; [apply updateExistingCondition_same|].
        intros _. apply updateExistingCondition_changed.
      * exists c. rewrite list_lookup_alter_ne by done.
        split; [done|]. split; [done|]. split; [done|]. split; [done|].
        split; [done|]. intros Ht. exfalso. apply Hne. symmetry.
        by eapply findProviderCondition_NoDup.
    + exists c. rewrite lookup_app_l by (by eapply lookup_lt_Some).
      split; [done|]. split; [done|]. split; [done|]. split; [done|].
      split; [done|]. intros Ht. exfalso.
      apply findProviderCondition_None in Hfind. apply Hfind. rewrite <- Ht.
      apply list_elem_of_fmap. exists c. split; [done|].
      by eapply list_elem_of_lookup_2.
  - intros Hin. subst result. unfold setKubevirtMachineProviderCondition.
    destruct (findProviderCondition conditions (Type_ condition)) as [k|] eqn:Hfind.
    + apply length_alter.
    + by apply findProviderCondition_None in Hfind.
  - intros Hnotin. subst result. unfold setKubevirtMachineProviderCondition.
    apply findProviderCondition_None in Hnotin. by rewrite Hnotin.
Qed.

(** The theorem at the list of the counterexample, written to with a new
    message. *)
Lemma setKubevirtMachineProviderCondition_spec_witness :
  NoDup (Type_ <$> [failureSeen])
  ∧ length (setKubevirtMachineProviderCondition 5 6
              (Kubevirt.set_Message failureSeenAgain "other error") [failureSeen]) = 1%nat.
Proof.
  assert (NoDup (Type_ <$> [failureSeen])) as Hnd.
  { simpl. apply NoDup_singleton. }
  split; [exact Hnd|].
  apply (setKubevirtMachineProviderCondition_spec 5 6
           (Kubevirt.set_Message failureSeenAgain "other error") [failureSeen] Hnd).
  simpl. apply list_elem_of_here.
Defined.
End ConditionsClaims.

(** ** The hostname injection *)

Section HostnameSpec.
Import Kubevirt.

Lemma decode_not_map_slice (j : json) (l : list (gmap string value)) :
  decode j ≠ VMapSlice l.
Proof. by destruct j. Qed.

(** Every member of a decoded object is a decoded document. *)
Lemma decode_object_lookup (members : list (string * json)) (k : string) (v : value) :
  decode_object members !! k = Some v → ∃ j, v = decode j.
Proof.
  unfold decode_object.
  assert (∀ acc : gmap string value,
            (∀ k v, acc !! k = Some v → ∃ j, v = decode j) →
            ∀ k v, fold_left (fun m kv => <[kv.1 := decode kv.2]> m) members acc !! k = Some v →
                   ∃ j, v = decode j) as Hgen.
  { induction members as [|[k0 j0] rest IH]; intros acc Hacc k' v'; simpl; [apply Hacc|].
    apply IH. intros k1 v1. rewrite lookup_insert. case_decide.
    - intros [= <-]. eauto.
    - apply Hacc. }
  apply Hgen. intros k' v'. by rewrite lookup_empty.
Qed.

Lemma decode_VMap (j : json) (m : gmap string value) :
  decode j = VMap m → ∃ members, m = decode_object members.
Proof. destruct j; simpl; try done. intros [= <-]. eauto. Qed.

(** A document without a [storage] member: every member is kept, and
    [storage] is added with the one file. *)
Lemma addHostname_no_storage (dataMap : gmap string value) (hostname : string) :
  dataMap !! "storage" = None →
  addHostname (Some dataMap) hostname
  = Done (<["storage" := VMap {[ "files" := VMapSlice [newFile hostname] ]}]> dataMap).
Proof.
  intros Hs. unfold addHostname. rewrite Hs. rewrite lookup_insert_eq. simpl.
  rewrite lookup_empty, lookup_insert_eq. simpl.
  by rewrite !insert_insert_eq.
Qed.

(** A document whose [storage] is an object without [files]: every member
    of the document and of [storage] is kept, and [files] is added. *)
Lemma addHostname_storage_no_files (dataMap storage : gmap string value) (hostname : string) :
  dataMap !! "storage" = Some (VMap storage) →
  storage !! "files" = None →
  addHostname (Some dataMap) hostname
  = Done (<["storage" := VMap (<["files" := VMapSlice [newFile hostname]]> storage)]> dataMap).
Proof.
  intros Hs Hf. unfold addHostname. rewrite Hs. simpl. rewrite Hs. simpl.
  rewrite Hf, lookup_insert_eq. simpl. by rewrite insert_insert_eq.
Qed.

(** A decoded document that has [storage.files]: whatever the member is,
    the decoder did not store a [[]map[string]interface{}], and the
    assertion to that type panics. *)
Lemma addHostname_files_present_panics
    (members : list (string * json)) (storage : gmap string value) (hostname : string) :
  decode_object members !! "storage" = Some (VMap storage) →
  is_Some (storage !! "files") →
  addHostname (Some (decode_object members)) hostname = Panic.
Proof.
  intros Hs [v Hf]. unfold addHostname. rewrite Hs. simpl. rewrite Hs. simpl.
  rewrite Hf.
  destruct (decode_object_lookup _ _ _ Hs) as [j Hj].
  symmetry in Hj. apply decode_VMap in Hj as [ms ->].
  destruct (decode_object_lookup _ _ _ Hf) as [j' ->].
  rewrite Hf. simpl. destruct j'; done.
Qed.

(** [storage] present and not an object: the first assertion panics. *)
Lemma addHostname_storage_not_object (dataMap : gmap string value) (v : value) (hostname : string) :
  dataMap !! "storage" = Some v →
  (∀ m, v ≠ VMap m) →
  addHostname (Some dataMap) hostname = Panic.
Proof.
  intros Hs Hv. unfold addHostname. rewrite Hs. simpl. rewrite Hs. simpl.
  destruct v; try done. by destruct (Hv m).
Qed.

(** The members that [addHostname] leaves alone. *)
Lemma addHostname_preserves (dataMap result : gmap string value) (hostname k : string) :
  addHostname (Some dataMap) hostname = Done result →
  k ≠ "storage" → result !! k = dataMap !! k.
Proof.
  unfold addHostname. intros H Hk.
  destruct (dataMap !! "storage") as [v|] eqn:Hs.
  - simpl in H. rewrite Hs in H. simpl in H. destruct v; try done. simpl in H.
    destruct (assert_map_slice _); [|done].
    injection H as <-. by rewrite lookup_insert_ne.
  - rewrite lookup_insert_eq in H. simpl in H.
    destruct (assert_map_slice _); [|done].
    injection H as <-. by rewrite !lookup_insert_ne.
Qed.

Lemma addHostname_userDataValue :
  addHostname (Some (decode_object [("key1", JString "value1")])) "machine-test"
  = Done Mock.userDataValueFullMap.
Proof. vm_compute. reflexivity. Qed.

(** The calls of the two library functions around it. *)
Lemma addHostnameToUserData_userDataValue `{EncodingJSON} (src : bytes) :
  json_document src = Some Mock.userDataDocument →
  addHostnameToUserData src "machine-test"
  = Done (match json_Marshal Mock.userDataValueFullMap with
          | (_, Some err) => ([], Some err)
          | (result, None) => (result, None)
          end).
Proof.
  intros Hdoc. unfold addHostnameToUserData, json_Unmarshal. rewrite Hdoc.
  unfold Mock.userDataDocument. rewrite addHostname_userDataValue.
  by destruct (json_Marshal Mock.userDataValueFullMap) as [result [err|]].
Qed.

Lemma json_Unmarshal_nil `{EncodingJSON} (src : bytes) :
  json_Unmarshal src = None ↔
  ∀ members, json_document src ≠ Some (JObject members).
Proof.
  unfold json_Unmarshal. destruct (json_document src) as [[| | | | |ms]|]; split; try done.
  intros H'. by destruct (H' ms).
Qed.

(** Bytes that do not hold a JSON object leave [dataMap] nil, and the
    first assignment panics. *)
Lemma addHostnameToUserData_malformed_panics `{EncodingJSON} (src : bytes) (hostname : string) :
  json_Unmarshal src = None →
  addHostnameToUserData src hostname = Panic.
Proof. intros Hnil. unfold addHostnameToUserData. by rewrite Hnil. Qed.
End HostnameSpec.

(** ** The manager *)

Section ManagerSpec.
Context {S C : Type} `{!MachineScope S} `{!Client C} {JSON : EncodingJSON}.
Import Kubevirt.
Implicit Types (st : @state S C) (vm : VirtualMachine) (err : opaque_error).

(** The error that [Create], [Update] and [Delete] make of a failed call
    wraps the error of the call, and carries no requeue delay. *)
Lemma Errorf_w_Unwrap (prefix : string) err :
  Unwrap (Errorf_w prefix err) = Some err ∧ requeue_hint (Errorf_w prefix err) = None.
Proof. done. Qed.

(** *** Status synchronization *)

(** The instance fetch gave a [nil] pointer (with or without an error):
    [*vmi] panics before [SyncMachine] is called. *)
Lemma syncMachine_nil_instance_panics st vm (e : option opaque_error) (c1 : C) :
  GetVirtualMachineInstance (infraClusterClient st) (Namespace vm) (Name vm) = ((None, e), c1) →
  syncMachine vm st
  = (Panic, mkState (scope st) c1
              (calls st ++ [CallGetVirtualMachineInstance (Namespace vm) (Name vm)])).
Proof. intros Hget. go_unfold. by go_with Hget. Qed.

(** X20.  The instance fetch gave an object: [SyncMachine] is called
    with it, whether or not the fetch also gave an error, and the result
    of [syncMachine] is the one of [SyncMachine]: the error of the fetch is
    never returned. *)
Lemma syncMachine_instance st vm (vmi : VirtualMachineInstance)
    (e r : option opaque_error) (c1 : C) (s1 : S) :
  GetVirtualMachineInstance (infraClusterClient st) (Namespace vm) (Name vm) = ((Some vmi, e), c1) →
  SyncMachine (scope st) vm vmi = (r, s1) →
  syncMachine vm st
  = (Done r, mkState s1 c1
               (calls st ++ [CallGetVirtualMachineInstance (Namespace vm) (Name vm)])).
Proof. intros Hget Hsync. go_unfold. go_with Hget. by go_with Hsync. Qed.

(** *** Create *)

(** X11.  The secret creation fails: the wrapped error is returned, the
    secret creation is the only call (no VM is derived or created), and
    the machine scope is the one [Create] was called with: the condition
    that the code builds is a local value that nothing stores. *)
Lemma Create_secret_failure st (userData fullUserData : bytes) (secret : Secret)
    (r : option Secret) err (c1 : C) :
  addHostnameToUserData userData (GetMachineName (scope st)) = Done (fullUserData, None) →
  CreateIgnitionSecretFromMachine (scope st) fullUserData = Some secret →
  CreateSecret (infraClusterClient st) (SecretNamespace secret) secret = ((r, Some err), c1) →
  Create userData st
  = (Done (Some (Errorf_w "failed to create ignition secret" err)),
     mkState (scope st) c1 (calls st ++ [CallCreateSecret (SecretNamespace secret) secret])).
Proof.
  intros Hdata Hsecret Hcreate. go_unfold.
  go_with Hdata. go_with Hsecret. by go_with Hcreate.
Qed.

(** X12.  The VM creation fails: the wrapped error is returned after the
    two creation calls, the machine scope is the one [Create] was called
    with, and nothing undoes the secret creation. *)
Lemma Create_vm_failure st (userData fullUserData : bytes) (secret : Secret)
    (r : option Secret) vm (r' : option VirtualMachine) err (c1 c2 : C) :
  addHostnameToUserData userData (GetMachineName (scope st)) = Done (fullUserData, None) →
  CreateIgnitionSecretFromMachine (scope st) fullUserData = Some secret →
  CreateSecret (infraClusterClient st) (SecretNamespace secret) secret = ((r, None), c1) →
  CreateVirtualMachineFromMachine (scope st) = (Some vm, None) →
  CreateVirtualMachine c1 (Namespace vm) vm = ((r', Some err), c2) →
  Create userData st
  = (Done (Some (Errorf_w "failed to create virtual machine" err)),
     mkState (scope st) c2
       (calls st ++ [CallCreateSecret (SecretNamespace secret) secret]
                 ++ [CallCreateVirtualMachine (Namespace vm) vm])).
Proof.
  intros Hdata Hsecret Hcreate Hvm Hcreatevm. go_unfold.
  go_with Hdata. go_with Hsecret. go_with Hcreate. go_with Hvm. go_with Hcreatevm.
  by rewrite <- app_assoc.
Qed.

(** The boot-config bytes do not hold a JSON object: [Create] panics in
    [addHostnameToUserData], before any call of the client. *)
Lemma Create_malformed_panics st (userData : bytes) :
  json_Unmarshal userData = None →
  Create userData st = (Panic, st).
Proof.
  intros Hnil. go_unfold.
  by rewrite (addHostnameToUserData_malformed_panics _ _ Hnil).
Qed.
End ManagerSpec.

Section ManagerClaims.
Context {S C : Type} `{!MachineScope S} `{!Client C} {JSON : EncodingJSON}.
Import Kubevirt.
Implicit Types (st : @state S C) (vm : VirtualMachine) (err : opaque_error).

(** *** Update *)

(** X19.  The get of the VM fails, with not-found or anything else:
    [Update] returns [false] and the error as it is, after that one call. *)
Lemma Update_get_error st vm (r : option VirtualMachine) err (c1 : C) :
  CreateVirtualMachineFromMachine (scope st) = (Some vm, None) →
  GetVirtualMachine (infraClusterClient st) (Namespace vm) (Name vm) = ((r, Some err), c1) →
  Update st
  = (Done (false, Some (Opaque err)),
     mkState (scope st) c1 (calls st ++ [CallGetVirtualMachine (Namespace vm) (Name vm)])).
Proof. intros Hvm Hget. go_unfold. go_with Hvm. by go_with Hget. Qed.

(** The branch [existingVM == nil] of [updateVM]: the get returns no
    object and no error.  Within the grace window ([UpdateAllowed] of the
    scope) [Update] returns [false] and a [RequeueAfterError] of 20
    seconds, after it [false] and a [RequeueAfterError] of 180 seconds; the
    two delays differ; the get is the only call made. *)
Theorem Update_no_existing_VM st vm (c1 : C) :
  CreateVirtualMachineFromMachine (scope st) = (Some vm, None) →
  GetVirtualMachine (infraClusterClient st) (Namespace vm) (Name vm) = ((None, None), c1) →
  (UpdateAllowed (scope st) requeueAfterSeconds = true →
     (Update st).1 = Done (false, Some (RequeueAfterError (20 * Second))))
  ∧ (UpdateAllowed (scope st) requeueAfterSeconds = false →
     (Update st).1 = Done (false, Some (RequeueAfterError (180 * Second))))
  ∧ 20 * Second ≠ 180 * Second
  ∧ (Update st).2
    = mkState (scope st) c1 (calls st ++ [CallGetVirtualMachine (Namespace vm) (Name vm)]).
Proof.
  intros Hvm Hget.
  assert (Update st
          = (Done (false,
                   Some (RequeueAfterError
                           (if UpdateAllowed (scope st) requeueAfterSeconds
                            then 20 * Second else 180 * Second))),
             mkState (scope st) c1
               (calls st ++ [CallGetVirtualMachine (Namespace vm) (Name vm)]))) as ->.
  { go_unfold. go_with Hvm. go_with Hget.
    by destruct (UpdateAllowed (scope st) requeueAfterSeconds). }
  cbn. split; [by intros ->|]. split; [by intros ->|]. split; [|done].
  unfold Second. lia.
Qed.

(** C6, as the code has it.  [Update] finds the existing VM, the update
    call succeeds and so does the status synchronization after it (the
    instance fetch gives an instance and [SyncMachine] returns no error):
    [Update] returns [wasUpdated] = (the resource version before the call
    differs from the one after it) and a nil error; with equal versions
    that is [(false, nil)].  When [SyncMachine] returns an error,
    [Update] returns [false] and that error. *)
Theorem Update_wasUpdated st vm (existingVM updatedVM : VirtualMachine)
    (vmi : VirtualMachineInstance) (e r : option opaque_error) (c1 c2 c3 : C) (s1 : S) :
  CreateVirtualMachineFromMachine (scope st) = (Some vm, None) →
  GetVirtualMachine (infraClusterClient st) (Namespace vm) (Name vm)
    = ((Some existingVM, None), c1) →
  UpdateVirtualMachine c1 (Namespace vm) (carryForward vm existingVM)
    = ((Some updatedVM, None), c2) →
  GetVirtualMachineInstance c2 (Namespace updatedVM) (Name updatedVM) = ((Some vmi, e), c3) →
  SyncMachine (scope st) updatedVM vmi = (r, s1) →
  (Update st).1
  = Done (match r with
          | None => (negb (bool_decide (ResourceVersion existingVM = ResourceVersion updatedVM)),
                     None)
          | Some err => (false, Some (Opaque err))
          end)
  ∧ (r = None → ResourceVersion existingVM = ResourceVersion updatedVM →
     (Update st).1 = Done (false, None)).
Proof.
  intros Hvm Hget Hupdate Hvmi Hsync.
  assert ((Update st).1
          = Done (match r with
                  | None => (negb (bool_decide (ResourceVersion existingVM
                                                = ResourceVersion updatedVM)), None)
                  | Some err => (false, Some (Opaque err))
                  end)) as Hrun.
  { go_unfold. go_with Hvm. go_with Hget. go_with Hupdate. go_with Hvmi. go_with Hsync.
    by destruct r. }
  split; [exact Hrun|].
  intros -> Hrv. rewrite Hrun. by rewrite bool_decide_eq_true_2.
Qed.

(** *** Delete *)

(** C7.  The VM is absent (the get returns a not-found error, or no
    object and no error): [Delete] returns nil and the get is the only
    call it makes.  The VM is found: [Delete] makes, after the get, one
    delete call with [GracePeriodSeconds] 10, and returns nil when that
    call succeeds and its error, wrapped, when it fails. *)
Theorem Delete_spec st vm (r : option VirtualMachine * option opaque_error) (c1 : C) :
  CreateVirtualMachineFromMachine (scope st) = (Some vm, None) →
  GetVirtualMachine (infraClusterClient st) (Namespace vm) (Name vm) = (r, c1) →
  let get := CallGetVirtualMachine (Namespace vm) (Name vm) in
  (∀ existingVM err, r = (existingVM, Some err) → IsNotFound err = true →
     Delete st = (Done None, mkState (scope st) c1 (calls st ++ [get])))
  ∧ (r = (None, None) →
     Delete st = (Done None, mkState (scope st) c1 (calls st ++ [get])))
  ∧ (∀ existingVM (derr : option opaque_error) (c2 : C),
       r = (Some existingVM, None) →
       DeleteVirtualMachine c1 (Namespace existingVM) (Name existingVM) (Some 10) = (derr, c2) →
       Delete st
       = (Done (Errorf_w "failed to delete VM" <$> derr),
          mkState (scope st) c2
            (calls st ++ [get; CallDeleteVirtualMachine (Namespace existingVM)
                                 (Name existingVM) (Some 10)]))).
Proof.
  intros Hvm Hget get. split; [|split].
  - intros existingVM err -> Hnf. go_unfold. go_with Hvm. go_with Hget. by rewrite Hnf.
  - intros ->. go_unfold. go_with Hvm. by go_with Hget.
  - intros existingVM derr c2 -> Hdel. go_unfold. go_with Hvm. go_with Hget. go_with Hdel.
    rewrite <- app_assoc. by destruct derr.
Qed.

(** X21.  A read failure of [Delete] that is not a not-found is returned
    as it is, and no delete call is made. *)
Lemma Delete_get_error st vm (r : option VirtualMachine) err (c1 : C) :
  CreateVirtualMachineFromMachine (scope st) = (Some vm, None) →
  GetVirtualMachine (infraClusterClient st) (Namespace vm) (Name vm) = ((r, Some err), c1) →
  IsNotFound err = false →
  Delete st
  = (Done (Some (Opaque err)),
     mkState (scope st) c1 (calls st ++ [CallGetVirtualMachine (Namespace vm) (Name vm)])).
Proof. intros Hvm Hget Hnf. go_unfold. go_with Hvm. go_with Hget. by rewrite Hnf. Qed.

(** *** Exists *)

(** C8.  [Exists] makes one call, the get of the VM, and leaves the
    machine scope as it was.  It returns [(false, nil)] exactly when the
    get gives a not-found error or gives no object and no error,
    [(true, nil)] exactly when the get gives an object and no error, and
    otherwise [false] with the error of the get. *)
Theorem Exists_spec st (r : option VirtualMachine * option opaque_error) (c1 : C) :
  GetVirtualMachine (infraClusterClient st) (GetInfraNamespace (scope st))
    (GetMachineName (scope st)) = (r, c1) →
  ∃ res : bool * option error,
    Exists st
    = (Done res,
       mkState (scope st) c1
         (calls st ++ [CallGetVirtualMachine (GetInfraNamespace (scope st))
                         (GetMachineName (scope st))]))
    ∧ (res = (false, None) ↔
       (∃ err, r.2 = Some err ∧ IsNotFound err = true) ∨ r = (None, None))
    ∧ (res = (true, None) ↔ ∃ existingVM, r = (Some existingVM, None))
    ∧ (∀ err, r.2 = Some err → IsNotFound err = false → res = (false, Some (Opaque err))).
Proof.
  intros Hget. destruct r as [existingVM [err|]].
  - destruct (IsNotFound err) eqn:Hnf.
    + exists (false, None). split; [go_unfold; go_with Hget; by rewrite Hnf|].
      split; [split; [intros _; left; by exists err | done]|].
      split; [split; [done | by intros [? ?]]|].
      intros err' [= <-]. congruence.
    + exists (false, Some (Opaque err)). split; [go_unfold; go_with Hget; by rewrite Hnf|].
      split; [split; [done | intros [(err' & [= <-] & ?)|?]; congruence]|].
      split; [split; [done | by intros [? ?]]|].
      by intros err' [= <-].
  - destruct existingVM as [existingVM|].
    + exists (true, None). split; [go_unfold; by go_with Hget|].
      split; [split; [done | intros [(err' & ? & ?)|?]; done]|].
      split; [split; [by exists existingVM | done]|].
      by intros err'.
    + exists (false, None). split; [go_unfold; by go_with Hget|].
      split; [split; [by right | done]|].
      split; [split; [done | by intros [? ?]]|].
      by intros err'.
Qed.
End ManagerClaims.

(** ** The providerID reconciler *)

Section ReconcilerClaims.
Context {K C T : Type} `{!NodeClient K} `{!Client C} `{!TenantClient T}.
Import ProviderID.
Implicit Types (st : @state K C T).

(** C10.  The node that the reconciler reads has a non-empty
    [providerID]: in both revisions of the reconciler the pass returns
    [reconcile.Result{}] and a nil error, and the read of the node is the
    only call it makes on any of its clients: no lookup of the namespace
    or of the instance, and no update of the node. *)
Theorem Reconcile_assigned_node_untouched st (request : string * string)
    (node : Node) (k1 : K) :
  Get (client st) request = ((node, None), k1) →
  ProviderID node ≠ EmptyString →
  let st1 := mkState k1 (infraClusterClient st) (tenantClusterClient st)
               (calls st ++ [CallGet request]) in
  Reconcile request st = (Done (noRequeue, None), st1)
  ∧ Reconcile' request st = (Done (noRequeue, None), st1).
Proof.
  intros Hget Hid st1. split.
  - reconcile_unfold. go_with Hget. by rewrite bool_decide_eq_false_2.
  - reconcile_unfold. go_with Hget. by rewrite bool_decide_eq_false_2.
Qed.

(** The node has no [providerID] and every lookup succeeds: the node is
    updated with the formatted identifier. *)
Lemma Reconcile_unassigned_node st (request : string * string) (node : Node)
    (namespace : string) (vmi : VirtualMachineInstance)
    (k1 k2 : K) (t1 t2 : T) (c1 : C) :
  Get (client st) request = ((node, None), k1) →
  ProviderID node = EmptyString →
  GetNamespace (tenantClusterClient st) = ((namespace, None), t1) →
  GetVirtualMachineInstance (infraClusterClient st) namespace (NodeName node)
    = ((Some vmi, None), c1) →
  GetNamespace t1 = ((namespace, None), t2) →
  Update k1 (set_ProviderID node (FormatProviderID namespace (VMIName vmi))) = (None, k2) →
  Reconcile request st
  = (Done (noRequeue, None),
     mkState k2 c1 t2
       (calls st ++ [CallGet request; CallGetNamespace;
                     CallGetVirtualMachineInstance namespace (NodeName node);
                     CallGetNamespace;
                     CallUpdate (set_ProviderID node
                                   (FormatProviderID namespace (VMIName vmi)))])).
Proof.
  intros Hget Hid Hns Hvmi Hns' Hupd. reconcile_unfold.
  go_with Hget. rewrite bool_decide_eq_true_2 by done. cbn.
  go_with Hns. go_with Hvmi. go_with Hns'. go_with Hupd.
  by rewrite <- !app_assoc.
Qed.
End ReconcilerClaims.

(** ** The claims on the mocks of the tests *)

Section MockRuns.
Import Kubevirt Mock.

(** C1.  The secret creation fails with the error [test error], and then
    the VM creation does, on a machine whose condition list is empty.
    [Create] returns the error wrapped, as the claim has it; but the
    machine scope it leaves is the one it was given, and the condition
    list is still empty: no [Failure] condition is set. *)
Theorem Create_failure_sets_no_condition :
  let run1 := Create (JSON := userDataJSON) userDataValue
                (mkState stubMachineScope secretFails []) in
  let run2 := Create (JSON := userDataJSON) userDataValue
                (mkState stubMachineScope vmCreationFails []) in
  run1.1 = Done (Some (WrapError "failed to create ignition secret: test error" plainError))
  ∧ scope run1.2 = stubMachineScope
  ∧ providerStatusConditions (scope run1.2) = []
  ∧ run2.1 = Done (Some (WrapError "failed to create virtual machine: test error" plainError))
  ∧ scope run2.2 = stubMachineScope
  ∧ providerStatusConditions (scope run2.2) = [].
Proof. vm_compute. repeat split. Qed.

(** C3.  Every call succeeds but the fetch of the instance, which gives
    not-found and no object: the status synchronization panics on
    [*vmi], and so do [Create] and [Update], after the VM was created or
    updated. *)
Theorem syncMachine_instance_not_found_panics :
  let st := mkState stubMachineScope instanceNotFound [] in
  (syncMachine (stubVirtualMachine "1") st).1 = Panic
  ∧ (Create (JSON := userDataJSON) userDataValue st).1 = Panic
  ∧ (Update st).1 = Panic
  ∧ synced (scope (Create (JSON := userDataJSON) userDataValue st).2) = None.
Proof. vm_compute. repeat split. Qed.

(** C4.  The boot config has a [storage.files] array, here the empty
    one: the decoder stores it as a [[]interface{}], and the assertion
    [storage["files"].([]map[string]interface{})] panics. *)
Theorem addHostnameToUserData_storage_files_panics :
  addHostname (Some (decode_object [("storage", JObject [("files", JArray [])])]))
    "machine-test" = Panic
  ∧ addHostnameToUserData (JSON := storageFilesJSON) storageFilesUserData "machine-test" = Panic.
Proof. vm_compute. split; reflexivity. Qed.

(** C9.  The boot config is not JSON: [Create] panics, and has made no
    call. *)
Theorem Create_malformed_userData_panics :
  Create (JSON := malformedJSON) malformedUserData (mkState stubMachineScope stubClient [])
  = (Panic, mkState stubMachineScope stubClient []).
Proof. apply Create_malformed_panics. reflexivity. Qed.

(** C6, counterexample.  The get finds the VM at resource version 1, the
    update call succeeds and gives resource version 2, and [SyncMachine]
    fails: [Update] returns [false] (and the error of [SyncMachine])
    although the resource version changed. *)
Lemma Update_sync_failure_reports_false :
  let st := mkState syncFails versionMoves [] in
  (Update st).1 = Done (false, Some (Opaque plainError))
  ∧ ¬ Update_reports_version_change st.
Proof.
  split; [vm_compute; reflexivity|].
  intros Hclaim.
  destruct (Hclaim (stubVirtualMachine EmptyString) (stubVirtualMachine "1")
              (stubVirtualMachine "2") versionMoves versionMoves
              eq_refl eq_refl eq_refl) as [e He].
  vm_compute in He. discriminate He.
Qed.

Lemma Update_wasUpdated_witness :
  (Update (mkState stubMachineScope versionMoves [])).1 = Done (true, None).
Proof.
  pose (st := mkState stubMachineScope versionMoves []).
  pose (s1 := (SyncMachine stubMachineScope (stubVirtualMachine "2") stubVmi).2).
  assert (CreateVirtualMachineFromMachine (scope st)
          = (Some (stubVirtualMachine EmptyString), None)) as Hvm by reflexivity.
  assert (GetVirtualMachine (infraClusterClient st) clusterID mahcineName
          = ((Some (stubVirtualMachine "1"), None), versionMoves)) as Hget by reflexivity.
  assert (UpdateVirtualMachine versionMoves clusterID
            (carryForward (stubVirtualMachine EmptyString) (stubVirtualMachine "1"))
          = ((Some (stubVirtualMachine "2"), None), versionMoves)) as Hupdate by reflexivity.
  assert (GetVirtualMachineInstance versionMoves clusterID mahcineName
          = ((Some stubVmi, None), versionMoves)) as Hvmi by reflexivity.
  assert (SyncMachine (scope st) (stubVirtualMachine "2") stubVmi = (None, s1))
    as Hsync by reflexivity.
  exact (proj1 (Update_wasUpdated st _ _ _ _ _ _ _ _ _ _ Hvm Hget Hupdate Hvmi Hsync)).
Defined.

Lemma Update_no_existing_VM_witness :
  (Update (mkState stubMachineScope noVirtualMachine [])).1
  = Done (false, Some (RequeueAfterError (20 * Second))).
Proof.
  pose (st := mkState stubMachineScope noVirtualMachine []).
  assert (CreateVirtualMachineFromMachine (scope st)
          = (Some (stubVirtualMachine EmptyString), None)) as Hvm by reflexivity.
  assert (GetVirtualMachine (infraClusterClient st) clusterID mahcineName
          = ((None, None), noVirtualMachine)) as Hget by reflexivity.
  assert (UpdateAllowed (scope st) requeueAfterSeconds = true) as Hallowed by reflexivity.
  exact (proj1 (Update_no_existing_VM st _ _ Hvm Hget) Hallowed).
Defined.

Lemma Delete_spec_witness :
  Delete (mkState stubMachineScope noVirtualMachine [])
  = (Done None,
     mkState stubMachineScope noVirtualMachine
       [CallGetVirtualMachine clusterID mahcineName]).
Proof.
  pose (st := mkState stubMachineScope noVirtualMachine []).
  assert (CreateVirtualMachineFromMachine (scope st)
          = (Some (stubVirtualMachine EmptyString), None)) as Hvm by reflexivity.
  assert (GetVirtualMachine (infraClusterClient st) clusterID mahcineName
          = ((None, None), noVirtualMachine)) as Hget by reflexivity.
  exact (proj1 (proj2 (Delete_spec st _ _ _ Hvm Hget)) eq_refl).
Defined.

Lemma Exists_spec_witness :
  ∃ res : bool * option error,
    (Exists (mkState stubMachineScope stubClient [])).1 = Done res
    ∧ (res = (true, None) ↔
       ∃ existingVM, onGetVirtualMachine stubClient = (Some existingVM, None)).
Proof.
  pose (st := mkState stubMachineScope stubClient []).
  assert (GetVirtualMachine (infraClusterClient st) (GetInfraNamespace (scope st))
            (GetMachineName (scope st))
          = (onGetVirtualMachine stubClient, stubClient)) as Hget by reflexivity.
  destruct (Exists_spec st _ _ Hget) as (res & Hrun & _ & Htrue & _).
  exists res. split; [exact (f_equal fst Hrun) | exact Htrue].
Defined.

Lemma Reconcile_assigned_node_untouched_witness :
  ProviderID.Reconcile (mahcineName, EmptyString)
    (ProviderID.mkState stubNodeClient stubClient stubTenantClient [])
  = (Done (ProviderID.noRequeue, None),
     ProviderID.mkState stubNodeClient stubClient stubTenantClient
       [ProviderID.CallGet (mahcineName, EmptyString)]).
Proof.
  pose (st := ProviderID.mkState stubNodeClient stubClient stubTenantClient []).
  assert (Get (ProviderID.client st) (mahcineName, EmptyString)
          = ((assignedNode, None), stubNodeClient)) as Hget by reflexivity.
  assert (ProviderID assignedNode ≠ EmptyString) as Hid by discriminate.
  exact (proj1 (Reconcile_assigned_node_untouched st _ _ _ Hget Hid)).
Defined.
End MockRuns.

(** * Further properties of the code *)

(** ** The provider-condition helper, on any list *)

Section ConditionsMore.
Import Conditions.
Implicit Types (conditions : list VirtualMachineCondition).
Implicit Types (condition c : VirtualMachineCondition).

Lemma findProviderCondition_lt conditions t i :
  findProviderCondition conditions t = Some i → (i < length conditions)%nat.
Proof.
  intros (c & Hc & _)%findProviderCondition_Some. by eapply lookup_lt_Some.
Qed.

(** Appending a condition of the type sought to a list without one. *)
Lemma findProviderCondition_app_new conditions c :
  findProviderCondition conditions (Type_ c) = None →
  findProviderCondition (conditions ++ [c]) (Type_ c) = Some (length conditions).
Proof.
  induction conditions as [|c0 rest IH]; simpl.
  - intros _. by rewrite bool_decide_eq_true_2.
  - case_bool_decide; [done|]. intros Hrest%fmap_None. by rewrite IH.
Qed.

(** Rewriting a condition without touching its type moves no index. *)
Lemma findProviderCondition_alter (f : VirtualMachineCondition → VirtualMachineCondition)
    conditions t i :
  (∀ c, Type_ (f c) = Type_ c) →
  findProviderCondition (alter f i conditions) t = findProviderCondition conditions t.
Proof.
  intros Hf. revert i. induction conditions as [|c0 rest IH]; intros [|i]; simpl; try done.
  - by rewrite Hf.
  - change (list_alter f i rest) with (alter f i rest). by rewrite IH.
Qed.

Lemma updateExistingCondition_idempotent now1 now2 condition c :
  updateExistingCondition now2 condition (updateExistingCondition now1 condition c)
  = updateExistingCondition now1 condition c.
Proof.
  destruct (shouldUpdateCondition condition c) eqn:Hs.
  - apply updateExistingCondition_same;
      unfold updateExistingCondition; by rewrite Hs.
  - assert (updateExistingCondition now1 condition c = c) as ->
      by (unfold updateExistingCondition; by rewrite Hs).
    unfold updateExistingCondition. by rewrite Hs.
Qed.

(** X1.  [findProviderCondition] gives the first condition of the type:
    it returns the index [i] exactly when the condition at [i] has the
    type and no condition before [i] has it. *)
Theorem findProviderCondition_first conditions (t : VirtualMachineConditionType) (i : nat) :
  findProviderCondition conditions t = Some i ↔
  (∃ c, conditions !! i = Some c ∧ Type_ c = t)
  ∧ (∀ j c, (j < i)%nat → conditions !! j = Some c → Type_ c ≠ t).
Proof.
  revert i. induction conditions as [|c0 rest IH]; intros i; simpl.
  - split; [done | by intros [(c & Hc & _) _]].
  - case_bool_decide as Hc0.
    + split.
      * intros [= <-]. split; [by exists c0 | intros j c Hj; lia].
      * intros [(c & Hc & Ht) Hfirst]. destruct i as [|i]; [done|].
        destruct (Hfirst 0%nat c0); [lia | done | done].
    + split.
      * intros (i' & Hi' & ->)%fmap_Some. apply IH in Hi' as [Hat Hfirst].
        split; [done|]. intros [|j] c Hj Hc; simpl in Hc.
        -- congruence.
        -- apply (Hfirst j c); [lia | done].
      * intros [(c & Hc & Ht) Hfirst]. destruct i as [|i]; simpl in Hc.
        -- congruence.
        -- apply fmap_Some. exists i. split; [|done]. apply IH. split; [by exists c|].
           intros j c' Hj Hc'. apply (Hfirst (S j) c'); [lia | done].
Qed.

(** X2.  Writing the same condition a second time, at any later time,
    changes nothing: the helper is idempotent, on every list. *)
Theorem setKubevirtMachineProviderCondition_idempotent
    (now1 now1' now2 now2' : Time) condition conditions :
  setKubevirtMachineProviderCondition now2 now2' condition
    (setKubevirtMachineProviderCondition now1 now1' condition conditions)
  = setKubevirtMachineProviderCondition now1 now1' condition conditions.
Proof.
  destruct (findProviderCondition conditions (Type_ condition)) as [i|] eqn:Hfind.
  - assert (setKubevirtMachineProviderCondition now1 now1' condition conditions
            = alter (updateExistingCondition now1' condition) i conditions) as ->
      by (unfold setKubevirtMachineProviderCondition; by rewrite Hfind).
    unfold setKubevirtMachineProviderCondition.
    rewrite findProviderCondition_alter by apply updateExistingCondition_Type.
    rewrite Hfind, list_alter_alter_eq.
    apply list_alter_ext; [|done]. intros c _. simpl.
    apply updateExistingCondition_idempotent.
  - set (c := {| Type_ := Type_ condition; Status := Status condition;
                 LastProbeTime := now1; LastTransitionTime := now1;
                 Reason := Reason condition; Message := Message condition |}).
    assert (setKubevirtMachineProviderCondition now1 now1' condition conditions
            = conditions ++ [c]) as ->
      by (unfold setKubevirtMachineProviderCondition; by rewrite Hfind).
    unfold setKubevirtMachineProviderCondition.
    change (Type_ condition) with (Type_ c).
    rewrite (findProviderCondition_app_new conditions c Hfind).
    replace (length conditions) with (length conditions + 0)%nat by lia.
    rewrite alter_app_r. simpl. f_equal. f_equal.
    by apply updateExistingCondition_same.
Qed.

(** X3.  After a write the list holds a condition of the written type, and
    the first one has the written reason and message.  It has the written
    status too, unless the list already held that type with this reason
    and message: then the condition is left alone, status included. *)
Theorem setKubevirtMachineProviderCondition_lookup (now now' : Time) condition conditions :
  ∃ i c,
    findProviderCondition
      (setKubevirtMachineProviderCondition now now' condition conditions) (Type_ condition)
    = Some i
    ∧ setKubevirtMachineProviderCondition now now' condition conditions !! i = Some c
    ∧ Type_ c = Type_ condition
    ∧ Reason c = Reason condition
    ∧ Message c = Message condition
    ∧ (Status c = Status condition ∨ conditions !! i = Some c).
Proof.
  unfold setKubevirtMachineProviderCondition.
  destruct (findProviderCondition conditions (Type_ condition)) as [i|] eqn:Hfind.
  - destruct (findProviderCondition_Some _ _ _ Hfind) as (c & Hc & Ht).
    exists i, (updateExistingCondition now' condition c).
    rewrite findProviderCondition_alter by apply updateExistingCondition_Type.
    rewrite list_lookup_alter_eq, Hc. simpl.
    split; [done|]. split; [done|].
    split; [by rewrite updateExistingCondition_Type|].
    unfold updateExistingCondition, shouldUpdateCondition.
    destruct (bool_decide (Reason condition = Reason c)) eqn:HR;
      destruct (bool_decide (Message condition = Message c)) eqn:HM; simpl;
      try (split; [done|]; split; [done|]; by left).
    apply bool_decide_eq_true_1 in HR, HM. split; [done|]. split; [done|]. by right.
  - set (c := {| Type_ := Type_ condition; Status := Status condition;
                 LastProbeTime := now; LastTransitionTime := now;
                 Reason := Reason condition; Message := Message condition |}).
    exists (length conditions), c.
    change (Type_ condition) with (Type_ c).
    rewrite (findProviderCondition_app_new conditions c Hfind).
    split; [done|]. split; [|by auto].
    rewrite lookup_app_r by lia. by rewrite Nat.sub_diag.
Qed.

(** X4.  On any list, duplicates included, a write touches at most the
    first condition of the written type: every other index keeps its
    condition, and the list grows, by one, exactly when the type was
    absent. *)
Theorem setKubevirtMachineProviderCondition_in_place (now now' : Time) condition conditions :
  let result := setKubevirtMachineProviderCondition now now' condition conditions in
  (∀ i, (i < length conditions)%nat →
        findProviderCondition conditions (Type_ condition) ≠ Some i →
        result !! i = conditions !! i)
  ∧ length result
    = (length conditions
       + match findProviderCondition conditions (Type_ condition) with
         | Some _ => 0
         | None => 1
         end)%nat.
Proof.
  intros result. subst result. unfold setKubevirtMachineProviderCondition.
  destruct (findProviderCondition conditions (Type_ condition)) as [k|] eqn:Hfind.
  - split.
    + intros i _ Hne. apply list_lookup_alter_ne. congruence.
    + rewrite length_alter. lia.
  - split.
    + intros i Hi _. by apply lookup_app_l.
    + rewrite length_app. simpl. lia.
Qed.
End ConditionsMore.

(** ** The hostname injection, on any decoded document *)

Section HostnameMore.
Import Kubevirt.

Lemma newFile_injective (h1 h2 : string) : newFile h1 = newFile h2 → h1 = h2.
Proof.
  intros Heq. unfold newFile in Heq.
  set (c1 := ({[ "source" := VString ("data:," +:+ h1) ]} : gmap string value)) in *.
  set (c2 := ({[ "source" := VString ("data:," +:+ h2) ]} : gmap string value)) in *.
  set (rest := ({[ "filesystem" := VString "root"; "path" := VString "/etc/hostname";
                   "mode" := VInt 420 ]} : gmap string value)) in *.
  assert (Some (VMap c1) = Some (VMap c2)) as Hc.
  { rewrite <- (lookup_insert_eq rest "contents" (VMap c1)).
    rewrite <- (lookup_insert_eq rest "contents" (VMap c2)). by rewrite Heq. }
  assert (c1 = c2) as Hc' by congruence.
  assert (Some (VString ("data:," +:+ h1)) = Some (VString ("data:," +:+ h2))) as Hs.
  { rewrite <- (lookup_singleton_eq (M := gmap string) "source" (VString ("data:," +:+ h1))).
    rewrite <- (lookup_singleton_eq (M := gmap string) "source" (VString ("data:," +:+ h2))).
    fold c1 c2. by rewrite Hc'. }
  injection Hs as Hs. exact Hs.
Qed.

(** X5.  The derivation returns on a decoded JSON object exactly when the
    object has no [storage] member, or has a [storage] object without a
    [files] member; on every other object it panics. *)
Theorem addHostname_returns_iff (members : list (string * json)) (hostname : string) :
  (∃ r, addHostname (Some (decode_object members)) hostname = Done r) ↔
  decode_object members !! "storage" = None
  ∨ ∃ storage, decode_object members !! "storage" = Some (VMap storage)
               ∧ storage !! "files" = None.
Proof.
  split.
  - intros [r Hr]. destruct (decode_object members !! "storage") as [v|] eqn:Hs; [|by left].
    right.
    assert ((∃ m, v = VMap m) ∨ (∀ m, v ≠ VMap m)) as [[storage ->]|Hno]
      by (destruct v; eauto).
    + exists storage. split; [done|].
      destruct (storage !! "files") as [f|] eqn:Hf; [|done].
      rewrite (addHostname_files_present_panics members storage hostname Hs) in Hr;
        [done | by exists f].
    + by rewrite (addHostname_storage_not_object _ v hostname Hs Hno) in Hr.
  - intros [Hs|(storage & Hs & Hf)].
    + eexists. by apply addHostname_no_storage.
    + eexists. by apply addHostname_storage_no_files.
Qed.

(** X6.  When the derivation returns on a decoded JSON object, the
    document it hands to [json.Marshal] is the decoded object with
    [storage.files] set to the one entry for the host name: every other
    member of the document and every other member of [storage] is the one
    of the input. *)
Theorem addHostname_decoded_result
    (members : list (string * json)) (hostname : string) (r : gmap string value) :
  addHostname (Some (decode_object members)) hostname = Done r →
  ∃ storage,
    r !! "storage" = Some (VMap storage)
    ∧ storage !! "files" = Some (VMapSlice [newFile hostname])
    ∧ (∀ k, k ≠ "storage" → r !! k = decode_object members !! k)
    ∧ (∀ k, k ≠ "files" →
         storage !! k
         = match decode_object members !! "storage" with
           | Some (VMap old) => old !! k
           | _ => None
           end).
Proof.
  intros Hr.
  assert (∃ r', addHostname (Some (decode_object members)) hostname = Done r') as Hex
    by (by exists r).
  apply addHostname_returns_iff in Hex as [Hs|(old & Hs & Hf)].
  - rewrite (addHostname_no_storage _ hostname Hs) in Hr. injection Hr as <-.
    exists {[ "files" := VMapSlice [newFile hostname] ]}.
    rewrite lookup_insert_eq, lookup_singleton_eq, Hs.
    split; [done|]. split; [done|]. split.
    + intros k Hk. by rewrite lookup_insert_ne.
    + intros k Hk. by rewrite lookup_singleton_ne.
  - rewrite (addHostname_storage_no_files _ old hostname Hs Hf) in Hr. injection Hr as <-.
    exists (<["files" := VMapSlice [newFile hostname]]> old).
    rewrite !lookup_insert_eq, Hs.
    split; [done|]. split; [done|]. split.
    + intros k Hk. by rewrite lookup_insert_ne.
    + intros k Hk. by rewrite lookup_insert_ne.
Qed.

Lemma addHostname_decoded_result_witness :
  ∃ storage,
    Mock.userDataValueFullMap !! "storage" = Some (VMap storage)
    ∧ storage !! "files" = Some (VMapSlice [newFile "machine-test"]).
Proof.
  destruct (addHostname_decoded_result [("key1", JString "value1")] "machine-test"
              Mock.userDataValueFullMap addHostname_userDataValue)
    as (storage & Hs & Hf & _).
  by exists storage.
Defined.

(** X7.  The derived document tells the host name: from one boot config,
    two host names never give the same document. *)
Theorem addHostname_hostname_injective
    (dataMap r : gmap string value) (h1 h2 : string) :
  addHostname (Some dataMap) h1 = Done r →
  addHostname (Some dataMap) h2 = Done r →
  h1 = h2.
Proof.
  unfold addHostname.
  set (d := match dataMap !! "storage" with
            | Some _ => dataMap
            | None => <["storage" := VMap ∅]> dataMap
            end).
  destruct (assert_map (d !! "storage")) as [storage|]; [|done].
  set (s := match storage !! "files" with
            | Some _ => storage
            | None => <["files" := VMapSlice []]> storage
            end).
  destruct (assert_map_slice (s !! "files")) as [files|]; [|done].
  intros [= <-] [= Heq].
  assert ((<["storage" := VMap (<["files" := VMapSlice (files ++ [newFile h2])]> s)]> d)
            !! "storage"
          = (<["storage" := VMap (<["files" := VMapSlice (files ++ [newFile h1])]> s)]> d)
            !! "storage") as Hs by (by rewrite Heq).
  rewrite !lookup_insert_eq in Hs. injection Hs as Hs.
  assert ((<["files" := VMapSlice (files ++ [newFile h2])]> s) !! "files"
          = (<["files" := VMapSlice (files ++ [newFile h1])]> s) !! "files") as Hf
    by (by rewrite Hs).
  rewrite !lookup_insert_eq in Hf. injection Hf as Hf.
  apply app_inj_tail in Hf as [_ Hf]. symmetry. by apply newFile_injective.
Qed.

Lemma addHostname_hostname_injective_witness :
  ("machine-test" : string) = "machine-test".
Proof.
  exact (addHostname_hostname_injective (decode_object [("key1", JString "value1")])
           Mock.userDataValueFullMap "machine-test" "machine-test"
           addHostname_userDataValue addHostname_userDataValue).
Defined.
End HostnameMore.

(** ** The manager, on every scope and client *)

Section ManagerMore.
Context {S C : Type} `{!MachineScope S} `{!Client C} {JSON : EncodingJSON}.
Import Kubevirt.
Implicit Types (st : @state S C) (vm : VirtualMachine) (err : opaque_error).

(** X8.  [json.Marshal] fails on the derived document: [Create] returns
    that error as it is and has made no call. *)
Theorem Create_marshal_error st (userData out : bytes) (dataMap : gmap string value) err :
  addHostname (json_Unmarshal userData) (GetMachineName (scope st)) = Done dataMap →
  json_Marshal dataMap = (out, Some err) →
  Create userData st = (Done (Some (Opaque err)), st).
Proof.
  intros Hadd Hmarshal. go_unfold. unfold addHostnameToUserData.
  rewrite Hadd, Hmarshal. by destruct st.
Qed.

(** X9.  Every step succeeds up to the status synchronization: [Create]
    has made, in this order, the secret creation, the VM creation and the
    instance fetch for the created VM; the scope is the one [SyncMachine]
    leaves; the result is the error of [SyncMachine], not wrapped, or nil. *)
Theorem Create_runs_in_order st (userData fullUserData : bytes) (secret : Secret)
    (r : option Secret) vm (createdVM : VirtualMachine) (vmi : VirtualMachineInstance)
    (e sync : option opaque_error) (c1 c2 c3 : C) (s1 : S) :
  addHostnameToUserData userData (GetMachineName (scope st)) = Done (fullUserData, None) →
  CreateIgnitionSecretFromMachine (scope st) fullUserData = Some secret →
  CreateSecret (infraClusterClient st) (SecretNamespace secret) secret = ((r, None), c1) →
  CreateVirtualMachineFromMachine (scope st) = (Some vm, None) →
  CreateVirtualMachine c1 (Namespace vm) vm = ((Some createdVM, None), c2) →
  GetVirtualMachineInstance c2 (Namespace createdVM) (Name createdVM) = ((Some vmi, e), c3) →
  SyncMachine (scope st) createdVM vmi = (sync, s1) →
  Create userData st
  = (Done (Opaque <$> sync),
     mkState s1 c3
       (calls st ++ [CallCreateSecret (SecretNamespace secret) secret;
                     CallCreateVirtualMachine (Namespace vm) vm;
                     CallGetVirtualMachineInstance (Namespace createdVM) (Name createdVM)])).
Proof.
  intros Hdata Hsecret Hcreate Hvm Hcreatevm Hvmi Hsync. go_unfold.
  go_with Hdata. go_with Hsecret. go_with Hcreate. go_with Hvm. go_with Hcreatevm.
  go_with Hvmi. go_with Hsync. rewrite <- !app_assoc. by destruct sync.
Qed.

(** X10.  [Create] returns nil only once the status is synchronized: then
    the boot config was derived, the secret was created, the VM that the
    scope derives was created, the instance of the VM that the client
    answered to the creation was fetched, and [SyncMachine] on that created
    VM and that fetched instance returned no error and left the scope that
    [Create] leaves; these three calls are the calls made. *)
Theorem Create_nil_only_after_sync st (userData : bytes) :
  (Create userData st).1 = Done None →
  ∃ (fullUserData : bytes) (secret : Secret) (r : option Secret) vm
    (createdVM : VirtualMachine) (vmi : VirtualMachineInstance)
    (e : option opaque_error) (c1 c2 c3 : C),
    addHostnameToUserData userData (GetMachineName (scope st)) = Done (fullUserData, None)
    ∧ CreateIgnitionSecretFromMachine (scope st) fullUserData = Some secret
    ∧ CreateSecret (infraClusterClient st) (SecretNamespace secret) secret = ((r, None), c1)
    ∧ CreateVirtualMachineFromMachine (scope st) = (Some vm, None)
    ∧ CreateVirtualMachine c1 (Namespace vm) vm = ((Some createdVM, None), c2)
    ∧ GetVirtualMachineInstance c2 (Namespace createdVM) (Name createdVM)
      = ((Some vmi, e), c3)
    ∧ SyncMachine (scope st) createdVM vmi = (None, scope (Create userData st).2)
    ∧ infraClusterClient (Create userData st).2 = c3
    ∧ calls (Create userData st).2
      = calls st ++ [CallCreateSecret (SecretNamespace secret) secret;
                     CallCreateVirtualMachine (Namespace vm) vm;
                     CallGetVirtualMachineInstance (Namespace createdVM) (Name createdVM)].
Proof.
  go_unfold. go_cases; intros Hnil; try discriminate Hnil.
  simplify_eq. do 10 eexists.
  repeat (split; [eassumption || reflexivity|]).
  by rewrite <- !app_assoc.
Qed.

(** X13.  The VM cannot be derived after the secret was created: [Create]
    returns the error of the derivation as it is; the secret creation is
    the only call, and nothing undoes it. *)
Theorem Create_derive_error_after_secret st (userData fullUserData : bytes)
    (secret : Secret) (r : option Secret) (v : option VirtualMachine) err (c1 : C) :
  addHostnameToUserData userData (GetMachineName (scope st)) = Done (fullUserData, None) →
  CreateIgnitionSecretFromMachine (scope st) fullUserData = Some secret →
  CreateSecret (infraClusterClient st) (SecretNamespace secret) secret = ((r, None), c1) →
  CreateVirtualMachineFromMachine (scope st) = (v, Some err) →
  Create userData st
  = (Done (Some (Opaque err)),
     mkState (scope st) c1 (calls st ++ [CallCreateSecret (SecretNamespace secret) secret])).
Proof.
  intros Hdata Hsecret Hcreate Hvm. go_unfold.
  go_with Hdata. go_with Hsecret. go_with Hcreate. by go_with Hvm.
Qed.

(** X14.  Whatever the scope and the client do, [Delete] leaves the scope
    as it was and makes no call, or the get, or the get followed by one
    delete with [GracePeriodSeconds] 10: it never creates or updates. *)
Theorem Delete_calls st :
  scope (Delete st).2 = scope st
  ∧ ∃ l, calls (Delete st).2 = calls st ++ l
         ∧ (l = []
            ∨ (∃ ns n, l = [CallGetVirtualMachine ns n])
            ∨ (∃ ns n ns' n',
                 l = [CallGetVirtualMachine ns n;
                      CallDeleteVirtualMachine ns' n' (Some 10)])).
Proof.
  go_unfold. go_cases.
  all: split; [done|].
  all: first [ exists []; split; [by rewrite app_nil_r | by left]
             | eexists; split; [reflexivity | right; left; by eauto]
             | eexists; split; [by rewrite <- app_assoc | right; right; by eauto 10] ].
Qed.

(** X15.  [Delete] panics exactly when the scope derives neither a VM nor
    an error: no answer of the client makes it panic. *)
Theorem Delete_panics_iff st :
  (Delete st).1 = Panic ↔ CreateVirtualMachineFromMachine (scope st) = (None, None).
Proof.
  go_unfold. go_cases; split; intros Hp; try done; try discriminate.
Qed.

(** X16.  The scope fails to derive the VM: [Update] returns [false] and
    [Delete] returns, both with the error as it is, and neither makes a
    call. *)
Theorem derive_error_no_call st (v : option VirtualMachine) err :
  CreateVirtualMachineFromMachine (scope st) = (v, Some err) →
  Update st = (Done (false, Some (Opaque err)), st)
  ∧ Delete st = (Done (Some (Opaque err)), st).
Proof.
  intros Hvm. split; go_unfold; go_with Hvm; by destruct st.
Qed.

(** X17.  [Update] returns [wasUpdated] true only with a nil error, and
    only after the get, the update call and the instance fetch. *)
Theorem Update_true_only_on_success st (e : option error) :
  (Update st).1 = Done (true, e) →
  e = None
  ∧ ∃ ns n ns' vm' ns'' n'',
      calls (Update st).2
      = calls st ++ [CallGetVirtualMachine ns n; CallUpdateVirtualMachine ns' vm';
                     CallGetVirtualMachineInstance ns'' n''].
Proof.
  go_unfold. go_cases; intros Htrue; try discriminate Htrue.
  split; [congruence|]. do 6 eexists. by rewrite <- !app_assoc.
Qed.

(** X18.  The update call fails: [Update] returns [false] and the error
    wrapped; the VM it sent carries the resource version and the created
    and ready flags of the existing VM; there is no instance fetch and the
    scope is not written. *)
Theorem Update_update_failure st vm (existingVM : VirtualMachine)
    (r : option VirtualMachine) err (c1 c2 : C) :
  CreateVirtualMachineFromMachine (scope st) = (Some vm, None) →
  GetVirtualMachine (infraClusterClient st) (Namespace vm) (Name vm)
    = ((Some existingVM, None), c1) →
  UpdateVirtualMachine c1 (Namespace vm) (carryForward vm existingVM) = ((r, Some err), c2) →
  Update st
  = (Done (false, Some (Errorf_w "failed to update VM" err)),
     mkState (scope st) c2
       (calls st ++ [CallGetVirtualMachine (Namespace vm) (Name vm);
                     CallUpdateVirtualMachine (Namespace vm) (carryForward vm existingVM)]))
  ∧ ResourceVersion (carryForward vm existingVM) = ResourceVersion existingVM
  ∧ Created (VMStatus (carryForward vm existingVM)) = Created (VMStatus existingVM)
  ∧ Ready (VMStatus (carryForward vm existingVM)) = Ready (VMStatus existingVM)
  ∧ Spec (carryForward vm existingVM) = Spec vm.
Proof.
  intros Hvm Hget Hupdate. split; [|done]. go_unfold.
  go_with Hvm. go_with Hget. go_with Hupdate. by rewrite <- app_assoc.
Qed.

(** X22.  Whatever the scope and the client do, [Update] makes no call, or
    the get, or the get and the update call, or these two and the instance
    fetch, in this order: it never creates or deletes. *)
Theorem Update_calls st :
  ∃ l, calls (Update st).2 = calls st ++ l
       ∧ (l = []
          ∨ (∃ ns n, l = [CallGetVirtualMachine ns n])
          ∨ (∃ ns n ns' vm', l = [CallGetVirtualMachine ns n; CallUpdateVirtualMachine ns' vm'])
          ∨ (∃ ns n ns' vm' ns'' n'',
               l = [CallGetVirtualMachine ns n; CallUpdateVirtualMachine ns' vm';
                    CallGetVirtualMachineInstance ns'' n''])).
Proof.
  go_unfold. go_cases.
  all: first [ exists []; split; [by rewrite app_nil_r | by left]
             | eexists; split; [reflexivity | right; left; by eauto]
             | eexists; split; [by rewrite <- !app_assoc | right; right; left; by eauto 10]
             | eexists; split; [by rewrite <- !app_assoc | right; right; right; by eauto 10] ].
Qed.
End ManagerMore.

(** ** The providerID reconciler, on every client *)

Section ReconcilerMore.
Context {K C T : Type} `{!NodeClient K} `{!Client C} `{!TenantClient T}.
Import ProviderID.
Implicit Types (st : @state K C T).

(** X23.  The read of the node fails: both revisions return
    [reconcile.Result{}], with a nil error when the node is not found and
    otherwise with a new error that carries the text of the cause but does
    not wrap it; the read is the only call. *)
Theorem Reconcile_node_read_error st (request : string * string)
    (node : Node) (err : opaque_error) (k1 : K) :
  Get (client st) request = ((node, Some err), k1) →
  let st1 := mkState k1 (infraClusterClient st) (tenantClusterClient st)
               (calls st ++ [CallGet request]) in
  let e := if IsNotFound err then None
           else Some (ErrorString ("error getting node: " +:+ error_text err)) in
  Reconcile request st = (Done (noRequeue, e), st1)
  ∧ Reconcile' request st = (Done (noRequeue, e), st1)
  ∧ (∀ e', e = Some e' → Unwrap e' = None).
Proof.
  intros Hget st1 e. subst e. split; [|split].
  - reconcile_unfold. go_with Hget. by destruct (IsNotFound err).
  - reconcile_unfold. go_with Hget. by destruct (IsNotFound err).
  - intros e'. destruct (IsNotFound err); [done|]. by intros [= <-].
Qed.

(** X24.  In the revision that reads the config map, a failure of that
    read on a node without [providerID] is dropped: the pass returns
    [reconcile.Result{}] and a nil error, and looks up no instance and
    updates no node. *)
Theorem Reconcile_configmap_error_swallowed st (request : string * string)
    (node : Node) (cMap : option (gmap string string)) (err : opaque_error)
    (k1 : K) (t1 : T) :
  Get (client st) request = ((node, None), k1) →
  ProviderID node = EmptyString →
  GetConfigMapValue (tenantClusterClient st) ConfigMapName ConfigMapNamespace
    ConfigMapDataKeyName = ((cMap, Some err), t1) →
  Reconcile' request st
  = (Done (noRequeue, None),
     mkState k1 (infraClusterClient st) t1
       (calls st ++ [CallGet request;
                     CallGetConfigMapValue "cloud-provider-config" "openshift-config"
                       "config"])).
Proof.
  intros Hget Hid Hcm. reconcile_unfold. go_with Hget.
  rewrite bool_decide_eq_true_2 by done. cbn. go_with Hcm. by rewrite <- app_assoc.
Qed.

(** X25.  In the same revision, a config map value without the key
    [namespace] gives an invalid-configuration machine error; no instance
    is looked up and no node is updated. *)
Theorem Reconcile_configmap_missing_namespace st (request : string * string)
    (node : Node) (cMap : gmap string string) (k1 : K) (t1 : T) :
  Get (client st) request = ((node, None), k1) →
  ProviderID node = EmptyString →
  GetConfigMapValue (tenantClusterClient st) ConfigMapName ConfigMapNamespace
    ConfigMapDataKeyName = ((Some cMap, None), t1) →
  cMap !! "namespace" = None →
  Reconcile' request st
  = (Done (noRequeue,
           Some (MachineError "InvalidConfiguration"
                   "ProviderID: configMap openshift-config/cloud-provider-config: The map extracted with key config doesn't contain key namespace")),
     mkState k1 (infraClusterClient st) t1
       (calls st ++ [CallGet request;
                     CallGetConfigMapValue "cloud-provider-config" "openshift-config"
                       "config"])).
Proof.
  intros Hget Hid Hcm Hkey. reconcile_unfold. go_with Hget.
  rewrite bool_decide_eq_true_2 by done. cbn. go_with Hcm.
  unfold ConfigMapInfraNamespaceKeyName. rewrite Hkey. by rewrite <- app_assoc.
Qed.

(** X26.  The revision that calls [GetNamespace] calls it twice in a pass.
    The instance is looked up in the namespace of the first answer, and the
    identifier written to the node is formatted with the namespace of the
    second answer and the name of that instance. *)
Theorem Reconcile_namespace_read_twice st (request : string * string) (node : Node)
    (namespace1 namespace2 : string) (vmi : VirtualMachineInstance)
    (r : option opaque_error) (k1 k2 : K) (t1 t2 : T) (c1 : C) :
  Get (client st) request = ((node, None), k1) →
  ProviderID node = EmptyString →
  GetNamespace (tenantClusterClient st) = ((namespace1, None), t1) →
  GetVirtualMachineInstance (infraClusterClient st) namespace1 (NodeName node)
    = ((Some vmi, None), c1) →
  GetNamespace t1 = ((namespace2, None), t2) →
  Update k1 (set_ProviderID node (FormatProviderID namespace2 (VMIName vmi))) = (r, k2) →
  calls (Reconcile request st).2
  = calls st ++ [CallGet request; CallGetNamespace;
                 CallGetVirtualMachineInstance namespace1 (NodeName node);
                 CallGetNamespace;
                 CallUpdate {| NodeName := NodeName node;
                               ProviderID := "kubevirt://" +:+ namespace2 +:+ "/"
                                             +:+ VMIName vmi |}]
  ∧ (Reconcile request st).1
    = Done (noRequeue,
            Errorf_v ("failed updating node " +:+ NodeName node) <$> r).
Proof.
  intros Hget Hid Hns Hvmi Hns' Hupd. reconcile_unfold.
  go_with Hget. rewrite bool_decide_eq_true_2 by done. cbn.
  go_with Hns. go_with Hvmi. go_with Hns'.
  go_with Hupd. rewrite <- !app_assoc. by destruct r.
Qed.

(** X27.  The revision that reads the config map, when every lookup
    succeeds on a node without [providerID]: the node is updated, once,
    with the identifier [kubevirt://<namespace>/<instance name>], its name
    unchanged. *)
Theorem Reconcile_configmap_assigns_identifier st (request : string * string) (node : Node)
    (cMap : gmap string string) (namespace : string) (vmi : VirtualMachineInstance)
    (r : option opaque_error) (k1 k2 : K) (t1 : T) (c1 : C) :
  Get (client st) request = ((node, None), k1) →
  ProviderID node = EmptyString →
  GetConfigMapValue (tenantClusterClient st) ConfigMapName ConfigMapNamespace
    ConfigMapDataKeyName = ((Some cMap, None), t1) →
  cMap !! "namespace" = Some namespace →
  GetVirtualMachineInstance (infraClusterClient st) namespace (NodeName node)
    = ((Some vmi, None), c1) →
  Update k1 (set_ProviderID node (FormatProviderID namespace (VMIName vmi))) = (r, k2) →
  Reconcile' request st
  = (Done (noRequeue, Errorf_v ("failed updating node " +:+ NodeName node) <$> r),
     mkState k2 c1 t1
       (calls st ++ [CallGet request;
                     CallGetConfigMapValue "cloud-provider-config" "openshift-config"
                       "config";
                     CallGetVirtualMachineInstance namespace (NodeName node);
                     CallUpdate {| NodeName := NodeName node;
                                   ProviderID := "kubevirt://" +:+ namespace +:+ "/"
                                                 +:+ VMIName vmi |}])).
Proof.
  intros Hget Hid Hcm Hkey Hvmi Hupd. reconcile_unfold.
  go_with Hget. rewrite bool_decide_eq_true_2 by done. cbn.
  go_with Hcm. unfold ConfigMapInfraNamespaceKeyName. rewrite Hkey. cbn.
  go_with Hvmi.
  go_with Hupd. rewrite <- !app_assoc. by destruct r.
Qed.

(** X28.  A pass of either revision that returns, returns
    [reconcile.Result{}]: the reconciler never asks for a requeue through
    its result. *)
Theorem Reconcile_result_noRequeue st (request : string * string) :
  ((∃ e, (Reconcile request st).1 = Done (noRequeue, e))
   ∨ (Reconcile request st).1 = Panic)
  ∧ ((∃ e, (Reconcile' request st).1 = Done (noRequeue, e))
     ∨ (Reconcile' request st).1 = Panic).
Proof.
  split; reconcile_unfold; go_cases; eauto.
Qed.
End ReconcilerMore.

Section ReconcilerUpdates.
Context {K C T : Type} `{!NodeClient K} `{!Client C} `{!TenantClient T}.
Import ProviderID.
Implicit Types (st : @state K C T).

(** X29.  In both revisions, whatever the clients answer, a node is
    updated only when it was read without an error and with an empty
    [providerID]; the node sent has the name of the node read and an
    identifier made by [FormatProviderID]. *)
Theorem Reconcile_updates_only_unassigned st (request : string * string) :
  let node := (Get (client st) request).1.1 in
  (∃ l, calls (Reconcile request st).2 = calls st ++ l
        ∧ ∀ node', CallUpdate node' ∈ l →
            (Get (client st) request).1.2 = None
            ∧ ProviderID node = EmptyString
            ∧ NodeName node' = NodeName node
            ∧ ∃ namespace name, ProviderID node' = FormatProviderID namespace name)
  ∧ (∃ l, calls (Reconcile' request st).2 = calls st ++ l
          ∧ ∀ node', CallUpdate node' ∈ l →
              (Get (client st) request).1.2 = None
              ∧ ProviderID node = EmptyString
              ∧ NodeName node' = NodeName node
              ∧ ∃ namespace name, ProviderID node' = FormatProviderID namespace name).
Proof.
  intros node. subst node. split.
  all: reconcile_unfold; go_cases.
  all: eexists; split;
    [ first [ by rewrite app_nil_r | rewrite <- ?app_assoc; reflexivity ] | ].
  all: intros node' Hin; apply list_elem_of_In in Hin; simpl in Hin.
  all: repeat (destruct Hin as [Hin|Hin]; try discriminate Hin); try done.
  all: injection Hin as <-.
  all: repeat match goal with
              | Hb : negb (bool_decide _) = false |- _ =>
                  apply negb_false_iff, bool_decide_eq_true_1 in Hb
              end.
  all: simplify_eq; cbn; eauto 10.
Qed.
End ReconcilerUpdates.

(** ** The identifier *)

Section IdentifierFormat.
Import ProviderID.

Lemma append_slash_inj (a1 a2 b1 b2 : string) :
  contains_slash a1 = false → contains_slash a2 = false →
  a1 +:+ "/" +:+ b1 = a2 +:+ "/" +:+ b2 →
  a1 = a2 ∧ b1 = b2.
Proof.
  revert a2. induction a1 as [|x a1 IH]; intros [|y a2]; cbn [contains_slash String.append].
  - intros _ _ [= Hb]. split; [done | exact Hb].
  - intros _ Hy [= <- _]. by rewrite bool_decide_eq_true_2 in Hy.
  - intros Hx _ [= -> _]. by rewrite bool_decide_eq_true_2 in Hx.
  - intros [_ Hx]%orb_false_elim [_ Hy]%orb_false_elim [= -> Heq].
    destruct (IH a2 Hx Hy Heq) as [-> ->]. done.
Qed.

(** X30.  For namespaces without a [/], the identifier tells namespace
    and name: [FormatProviderID] gives one identifier to two pairs only
    when they are the same pair. *)
Theorem FormatProviderID_injective (namespace1 name1 namespace2 name2 : string) :
  contains_slash namespace1 = false →
  contains_slash namespace2 = false →
  FormatProviderID namespace1 name1 = FormatProviderID namespace2 name2 →
  namespace1 = namespace2 ∧ name1 = name2.
Proof.
  intros H1 H2 Heq. unfold FormatProviderID in Heq.
  cbn [String.append] in Heq. injection Heq as Heq.
  by apply append_slash_inj.
Qed.

Lemma FormatProviderID_injective_witness :
  Mock.clusterID = Mock.clusterID ∧ Mock.mahcineName = Mock.mahcineName.
Proof.
  assert (contains_slash Mock.clusterID = false) as Hns by reflexivity.
  exact (FormatProviderID_injective Mock.clusterID Mock.mahcineName
           Mock.clusterID Mock.mahcineName Hns Hns eq_refl).
Defined.
End IdentifierFormat.

(** ** The further properties on the mocks of the tests *)

Section MockRunsMore.
Import Kubevirt Mock.

Lemma Create_marshal_error_witness :
  Create (JSON := marshalFailsJSON) userDataValue (mkState stubMachineScope stubClient [])
  = (Done (Some (Opaque plainError)), mkState stubMachineScope stubClient []).
Proof.
  pose (st := mkState stubMachineScope stubClient []).
  assert (addHostname (json_Unmarshal (JSON := marshalFailsJSON) userDataValue)
            (GetMachineName (scope st)) = Done userDataValueFullMap)
    as Hadd by (vm_compute; reflexivity).
  assert (json_Marshal (EncodingJSON := marshalFailsJSON) userDataValueFullMap
          = ([], Some plainError)) as Hmarshal by reflexivity.
  exact (Create_marshal_error (JSON := marshalFailsJSON) st _ _ _ _ Hadd Hmarshal).
Defined.

Lemma Create_runs_in_order_witness :
  (Create (JSON := userDataJSON) userDataValue (mkState stubMachineScope stubClient [])).1
  = Done None.
Proof.
  pose (st := mkState stubMachineScope stubClient []).
  pose (secret := stubIgnitionSecret stubMachineScope userDataValueFull).
  assert (addHostnameToUserData (JSON := userDataJSON) userDataValue
            (GetMachineName (scope st)) = Done (userDataValueFull, None))
    as Hdata by (vm_compute; reflexivity).
  assert (CreateIgnitionSecretFromMachine (scope st) userDataValueFull = Some secret)
    as Hsecret by reflexivity.
  assert (CreateSecret (infraClusterClient st) (SecretNamespace secret) secret
          = ((None, None), stubClient)) as Hcreate by reflexivity.
  assert (CreateVirtualMachineFromMachine (scope st)
          = (Some (stubVirtualMachine EmptyString), None)) as Hvm by reflexivity.
  assert (CreateVirtualMachine stubClient clusterID (stubVirtualMachine EmptyString)
          = ((Some (stubVirtualMachine "1"), None), stubClient)) as Hcreatevm by reflexivity.
  assert (GetVirtualMachineInstance stubClient clusterID mahcineName
          = ((Some stubVmi, None), stubClient)) as Hvmi by reflexivity.
  assert (SyncMachine (scope st) (stubVirtualMachine "1") stubVmi
          = (None, (SyncMachine stubMachineScope (stubVirtualMachine "1") stubVmi).2))
    as Hsync by reflexivity.
  exact (f_equal fst
           (Create_runs_in_order (JSON := userDataJSON) st _ _ _ _ _ _ _ _ _ _ _ _ _
              Hdata Hsecret Hcreate Hvm Hcreatevm Hvmi Hsync)).
Defined.

Lemma Create_nil_only_after_sync_witness :
  ∃ (vm createdVM : VirtualMachine) (vmi : VirtualMachineInstance)
    (e : option opaque_error) (c1 c2 c3 : client),
    CreateVirtualMachine c1 (Namespace vm) vm = ((Some createdVM, None), c2)
    ∧ GetVirtualMachineInstance c2 (Namespace createdVM) (Name createdVM)
      = ((Some vmi, e), c3)
    ∧ SyncMachine stubMachineScope createdVM vmi
      = (None, scope (Create (JSON := userDataJSON) userDataValue
                        (mkState stubMachineScope stubClient [])).2).
Proof.
  assert ((Create (JSON := userDataJSON) userDataValue
             (mkState stubMachineScope stubClient [])).1 = Done None)
    as Hnil by (vm_compute; reflexivity).
  destruct (Create_nil_only_after_sync (JSON := userDataJSON)
              (mkState stubMachineScope stubClient []) userDataValue Hnil)
    as (fullUserData & secret & r & vm & createdVM & vmi & e & c1 & c2 & c3
        & _ & _ & _ & _ & Hcreated & Hvmi & Hsync & _).
  exists vm, createdVM, vmi, e, c1, c2, c3.
  split; [exact Hcreated|]. split; [exact Hvmi | exact Hsync].
Defined.

Lemma Create_secret_failure_witness :
  (Create (JSON := userDataJSON) userDataValue (mkState stubMachineScope secretFails [])).1
  = Done (Some (Errorf_w "failed to create ignition secret" plainError)).
Proof.
  pose (st := mkState stubMachineScope secretFails []).
  pose (secret := stubIgnitionSecret stubMachineScope userDataValueFull).
  assert (addHostnameToUserData (JSON := userDataJSON) userDataValue
            (GetMachineName (scope st)) = Done (userDataValueFull, None))
    as Hdata by (vm_compute; reflexivity).
  assert (CreateIgnitionSecretFromMachine (scope st) userDataValueFull = Some secret)
    as Hsecret by reflexivity.
  assert (CreateSecret (infraClusterClient st) (SecretNamespace secret) secret
          = ((None, Some plainError), secretFails)) as Hcreate by reflexivity.
  exact (f_equal fst
           (Create_secret_failure (JSON := userDataJSON) st _ _ _ _ _ _
              Hdata Hsecret Hcreate)).
Defined.

Lemma Create_vm_failure_witness :
  (Create (JSON := userDataJSON) userDataValue
     (mkState stubMachineScope vmCreationFails [])).1
  = Done (Some (Errorf_w "failed to create virtual machine" plainError)).
Proof.
  pose (st := mkState stubMachineScope vmCreationFails []).
  pose (secret := stubIgnitionSecret stubMachineScope userDataValueFull).
  assert (addHostnameToUserData (JSON := userDataJSON) userDataValue
            (GetMachineName (scope st)) = Done (userDataValueFull, None))
    as Hdata by (vm_compute; reflexivity).
  assert (CreateIgnitionSecretFromMachine (scope st) userDataValueFull = Some secret)
    as Hsecret by reflexivity.
  assert (CreateSecret (infraClusterClient st) (SecretNamespace secret) secret
          = ((None, None), vmCreationFails)) as Hcreate by reflexivity.
  assert (CreateVirtualMachineFromMachine (scope st)
          = (Some (stubVirtualMachine EmptyString), None)) as Hvm by reflexivity.
  assert (CreateVirtualMachine vmCreationFails clusterID (stubVirtualMachine EmptyString)
          = ((None, Some plainError), vmCreationFails)) as Hcreatevm by reflexivity.
  exact (f_equal fst
           (Create_vm_failure (JSON := userDataJSON) st _ _ _ _ _ _ _ _ _
              Hdata Hsecret Hcreate Hvm Hcreatevm)).
Defined.

Lemma Create_derive_error_after_secret_witness :
  (Create (JSON := userDataJSON) userDataValue (mkState deriveFails stubClient [])).1
  = Done (Some (Opaque plainError)).
Proof.
  pose (st := mkState deriveFails stubClient []).
  pose (secret := stubIgnitionSecret deriveFails userDataValueFull).
  assert (addHostnameToUserData (JSON := userDataJSON) userDataValue
            (GetMachineName (scope st)) = Done (userDataValueFull, None))
    as Hdata by (vm_compute; reflexivity).
  assert (CreateIgnitionSecretFromMachine (scope st) userDataValueFull = Some secret)
    as Hsecret by reflexivity.
  assert (CreateSecret (infraClusterClient st) (SecretNamespace secret) secret
          = ((None, None), stubClient)) as Hcreate by reflexivity.
  assert (CreateVirtualMachineFromMachine (scope st) = (None, Some plainError))
    as Hvm by reflexivity.
  exact (f_equal fst
           (Create_derive_error_after_secret (JSON := userDataJSON) st _ _ _ _ _ _ _
              Hdata Hsecret Hcreate Hvm)).
Defined.

Lemma derive_error_no_call_witness :
  Delete (mkState deriveFails stubClient [])
  = (Done (Some (Opaque plainError)), mkState deriveFails stubClient []).
Proof.
  pose (st := mkState deriveFails stubClient []).
  assert (CreateVirtualMachineFromMachine (scope st) = (None, Some plainError))
    as Hvm by reflexivity.
  exact (proj2 (derive_error_no_call st _ _ Hvm)).
Defined.

Lemma Update_true_only_on_success_witness :
  ∃ ns n ns' vm' ns'' n'',
    calls (Update (mkState stubMachineScope versionMoves [])).2
    = [] ++ [CallGetVirtualMachine ns n; CallUpdateVirtualMachine ns' vm';
             CallGetVirtualMachineInstance ns'' n''].
Proof.
  assert ((Update (mkState stubMachineScope versionMoves [])).1 = Done (true, None))
    as Htrue by (vm_compute; reflexivity).
  exact (proj2 (Update_true_only_on_success (mkState stubMachineScope versionMoves [])
                  None Htrue)).
Defined.

Lemma Update_update_failure_witness :
  (Update (mkState stubMachineScope updateFails [])).1
  = Done (false, Some (Errorf_w "failed to update VM" plainError)).
Proof.
  pose (st := mkState stubMachineScope updateFails []).
  assert (CreateVirtualMachineFromMachine (scope st)
          = (Some (stubVirtualMachine EmptyString), None)) as Hvm by reflexivity.
  assert (GetVirtualMachine (infraClusterClient st) clusterID mahcineName
          = ((Some (stubVirtualMachine "1"), None), updateFails)) as Hget by reflexivity.
  assert (UpdateVirtualMachine updateFails clusterID
            (carryForward (stubVirtualMachine EmptyString) (stubVirtualMachine "1"))
          = ((None, Some plainError), updateFails)) as Hupdate by reflexivity.
  exact (f_equal fst (proj1 (Update_update_failure st _ _ _ _ _ _ Hvm Hget Hupdate))).
Defined.

Lemma Update_get_error_witness :
  (Update (mkState stubMachineScope getFails [])).1 = Done (false, Some (Opaque notFound)).
Proof.
  pose (st := mkState stubMachineScope getFails []).
  assert (CreateVirtualMachineFromMachine (scope st)
          = (Some (stubVirtualMachine EmptyString), None)) as Hvm by reflexivity.
  assert (GetVirtualMachine (infraClusterClient st) clusterID mahcineName
          = ((None, Some notFound), getFails)) as Hget by reflexivity.
  exact (f_equal fst (Update_get_error st _ _ _ _ Hvm Hget)).
Defined.

Lemma syncMachine_instance_witness :
  (syncMachine (stubVirtualMachine "1") (mkState stubMachineScope instanceWithError [])).1
  = Done None.
Proof.
  pose (st := mkState stubMachineScope instanceWithError []).
  assert (GetVirtualMachineInstance (infraClusterClient st) clusterID mahcineName
          = ((Some stubVmi, Some plainError), instanceWithError)) as Hvmi by reflexivity.
  assert (SyncMachine (scope st) (stubVirtualMachine "1") stubVmi
          = (None, (SyncMachine stubMachineScope (stubVirtualMachine "1") stubVmi).2))
    as Hsync by reflexivity.
  exact (f_equal fst (syncMachine_instance st _ _ _ _ _ _ Hvmi Hsync)).
Defined.

Lemma Delete_get_error_witness :
  (Delete (mkState stubMachineScope getBreaks [])).1 = Done (Some (Opaque plainError)).
Proof.
  pose (st := mkState stubMachineScope getBreaks []).
  assert (CreateVirtualMachineFromMachine (scope st)
          = (Some (stubVirtualMachine EmptyString), None)) as Hvm by reflexivity.
  assert (GetVirtualMachine (infraClusterClient st) clusterID mahcineName
          = ((None, Some plainError), getBreaks)) as Hget by reflexivity.
  assert (IsNotFound plainError = false) as Hnf by reflexivity.
  exact (f_equal fst (Delete_get_error st _ _ _ _ Hvm Hget Hnf)).
Defined.

End MockRunsMore.

Section MockReconcilerRuns.
Import Mock.

Lemma Reconcile_node_read_error_witness :
  ProviderID.Reconcile (mahcineName, EmptyString)
    (ProviderID.mkState nodeGone stubClient stubTenantClient [])
  = (Done (ProviderID.noRequeue, None),
     ProviderID.mkState nodeGone stubClient stubTenantClient
       [ProviderID.CallGet (mahcineName, EmptyString)]).
Proof.
  pose (st := ProviderID.mkState nodeGone stubClient stubTenantClient []).
  assert (Get (ProviderID.client st) (mahcineName, EmptyString)
          = ((unassignedNode, Some notFound), nodeGone)) as Hget by reflexivity.
  exact (proj1 (Reconcile_node_read_error st _ _ _ _ Hget)).
Defined.

Lemma Reconcile_configmap_error_swallowed_witness :
  (ProviderID.Reconcile' (mahcineName, EmptyString)
     (ProviderID.mkState unassignedNodeClient stubClient configFails [])).1
  = Done (ProviderID.noRequeue, None).
Proof.
  pose (st := ProviderID.mkState unassignedNodeClient stubClient configFails []).
  assert (Get (ProviderID.client st) (mahcineName, EmptyString)
          = ((unassignedNode, None), unassignedNodeClient)) as Hget by reflexivity.
  assert (ProviderID unassignedNode = EmptyString) as Hid by reflexivity.
  assert (GetConfigMapValue (ProviderID.tenantClusterClient st) ProviderID.ConfigMapName
            ProviderID.ConfigMapNamespace ProviderID.ConfigMapDataKeyName
          = ((None, Some plainError), configFails)) as Hcm by reflexivity.
  exact (f_equal fst (Reconcile_configmap_error_swallowed st _ _ _ _ _ _ Hget Hid Hcm)).
Defined.

Lemma Reconcile_configmap_missing_namespace_witness :
  ∃ e, (ProviderID.Reconcile' (mahcineName, EmptyString)
          (ProviderID.mkState unassignedNodeClient stubClient configWithoutNamespace [])).1
       = Done (ProviderID.noRequeue, Some e).
Proof.
  pose (st := ProviderID.mkState unassignedNodeClient stubClient configWithoutNamespace []).
  assert (Get (ProviderID.client st) (mahcineName, EmptyString)
          = ((unassignedNode, None), unassignedNodeClient)) as Hget by reflexivity.
  assert (ProviderID unassignedNode = EmptyString) as Hid by reflexivity.
  assert (GetConfigMapValue (ProviderID.tenantClusterClient st) ProviderID.ConfigMapName
            ProviderID.ConfigMapNamespace ProviderID.ConfigMapDataKeyName
          = ((Some ∅, None), configWithoutNamespace)) as Hcm by reflexivity.
  assert ((∅ : gmap string string) !! "namespace" = None) as Hkey by reflexivity.
  eexists.
  exact (f_equal fst (Reconcile_configmap_missing_namespace st _ _ _ _ _ Hget Hid Hcm Hkey)).
Defined.

Lemma Reconcile_namespace_read_twice_witness :
  (ProviderID.Reconcile (mahcineName, EmptyString)
     (ProviderID.mkState unassignedNodeClient stubClient stubTenantClient [])).1
  = Done (ProviderID.noRequeue, None).
Proof.
  pose (st := ProviderID.mkState unassignedNodeClient stubClient stubTenantClient []).
  assert (Get (ProviderID.client st) (mahcineName, EmptyString)
          = ((unassignedNode, None), unassignedNodeClient)) as Hget by reflexivity.
  assert (ProviderID unassignedNode = EmptyString) as Hid by reflexivity.
  assert (GetNamespace (ProviderID.tenantClusterClient st)
          = ((clusterID, None), stubTenantClient)) as Hns by reflexivity.
  assert (GetVirtualMachineInstance (ProviderID.infraClusterClient st) clusterID
            (NodeName unassignedNode) = ((Some stubVmi, None), stubClient))
    as Hvmi by reflexivity.
  assert (GetNamespace stubTenantClient = ((clusterID, None), stubTenantClient))
    as Hns' by reflexivity.
  assert (Update unassignedNodeClient
            (ProviderID.set_ProviderID unassignedNode
               (ProviderID.FormatProviderID clusterID (VMIName stubVmi)))
          = (None, unassignedNodeClient)) as Hupd by reflexivity.
  exact (proj2 (Reconcile_namespace_read_twice st _ _ _ _ _ _ _ _ _ _ _
                  Hget Hid Hns Hvmi Hns' Hupd)).
Defined.

Lemma Reconcile_configmap_assigns_identifier_witness :
  (ProviderID.Reconcile' (mahcineName, EmptyString)
     (ProviderID.mkState unassignedNodeClient stubClient stubTenantClient [])).1
  = Done (ProviderID.noRequeue, None).
Proof.
  pose (st := ProviderID.mkState unassignedNodeClient stubClient stubTenantClient []).
  assert (Get (ProviderID.client st) (mahcineName, EmptyString)
          = ((unassignedNode, None), unassignedNodeClient)) as Hget by reflexivity.
  assert (ProviderID unassignedNode = EmptyString) as Hid by reflexivity.
  assert (GetConfigMapValue (ProviderID.tenantClusterClient st) ProviderID.ConfigMapName
            ProviderID.ConfigMapNamespace ProviderID.ConfigMapDataKeyName
          = ((Some {[ "namespace" := clusterID ]}, None), stubTenantClient))
    as Hcm by reflexivity.
  assert (({[ "namespace" := clusterID ]} : gmap string string) !! "namespace"
          = Some clusterID) as Hkey by reflexivity.
  assert (GetVirtualMachineInstance (ProviderID.infraClusterClient st) clusterID
            (NodeName unassignedNode) = ((Some stubVmi, None), stubClient))
    as Hvmi by reflexivity.
  assert (Update unassignedNodeClient
            (ProviderID.set_ProviderID unassignedNode
               (ProviderID.FormatProviderID clusterID (VMIName stubVmi)))
          = (None, unassignedNodeClient)) as Hupd by reflexivity.
  exact (f_equal fst
           (Reconcile_configmap_assigns_identifier st _ _ _ _ _ _ _ _ _ _
              Hget Hid Hcm Hkey Hvmi Hupd)).
Defined.
End MockReconcilerRuns.

(** ** An absent VM that the get reports with a not-found error *)

Section UpdateNotFound.
Import Kubevirt Mock.

(** C2.  The VM is absent and the get of the infra client says so with a
    not-found error and no object.  On that client [Exists] answers
    [(false, nil)] and [Delete] answers nil: for them the VM is not
    found.  [Update], within the grace window and past it alike, returns
    [false] with the not-found error of the get as it is: no
    [RequeueAfterError] is built, neither of 20 seconds nor of 180, and
    the error carries no requeue delay; the get is the only call. *)
Theorem Update_not_found_returns_raw_error :
  let within := Update (mkState stubMachineScope getFails []) in
  let elapsed := Update (mkState graceElapsed getFails []) in
  IsNotFound notFound = true
  ∧ (Exists (mkState stubMachineScope getFails [])).1 = Done (false, None)
  ∧ (Delete (mkState stubMachineScope getFails [])).1 = Done None
  ∧ UpdateAllowed stubMachineScope requeueAfterSeconds = true
  ∧ within.1 = Done (false, Some (Opaque notFound))
  ∧ UpdateAllowed graceElapsed requeueAfterSeconds = false
  ∧ elapsed.1 = Done (false, Some (Opaque notFound))
  ∧ requeue_hint (Opaque notFound) = None
  ∧ Opaque notFound ≠ RequeueAfterError (20 * Second)
  ∧ Opaque notFound ≠ RequeueAfterError (180 * Second)
  ∧ calls within.2 = [CallGetVirtualMachine clusterID mahcineName]
  ∧ calls elapsed.2 = [CallGetVirtualMachine clusterID mahcineName].
Proof. vm_compute. repeat split; discriminate. Qed.
End UpdateNotFound.
